(** * apiverve_zipcodeslookup: the client of the zip-code lookup service

    A shallow embedding of [apiClient.py] (class [ZipcodesAPIClient] and its
    two exception classes), followed by the properties of the specification
    that concern it.

    Python values are an inductive type, a [str] is the list of its code
    points, exceptions are the error case of a result type, and the two
    effects of [execute] (printing debug texts and calling the HTTP session)
    are threaded through an explicit world. The embedding covers the three
    classes as they are written; the import lines of the module and the
    [close] method, which no property below concerns, are left out. *)

From Stdlib Require Import ZArith List String Ascii Bool Lia.
From Stdlib Require Import DecimalString.
From Stdlib Require Import Floats.SpecFloat.
Import ListNotations.

Set Warnings "-register-all".
Open Scope Z_scope.

(** ** Strings *)

(** A Python [str]: its code points, so that [len] is [length]. *)
Definition pystr := list N.

(** A string literal of the source (all of them are ASCII). *)
Definition lit (s : string) : pystr :=
  map N_of_ascii (list_ascii_of_string s).

Fixpoint pystr_eqb (s t : pystr) : bool :=
  match s, t with
  | [], [] => true
  | c :: s', d :: t' => N.eqb c d && pystr_eqb s' t'
  | _, _ => false
  end.

(** [len(s)] *)
Definition len (s : pystr) : Z := Z.of_nat (List.length s).

(** [str(n)] for an [int]: its decimal digits, with a minus sign if negative. *)
Definition str_int (z : Z) : pystr :=
  lit (NilZero.string_of_int (Z.to_int z)).

(** [sep.join(parts)] *)
Fixpoint join (sep : pystr) (parts : list pystr) : pystr :=
  match parts with
  | [] => []
  | [p] => p
  | p :: rest => p ++ sep ++ join sep rest
  end.

(** [str.isspace] on one character: the code points Python's [str.strip()]
    removes. *)
Definition isspace (c : N) : bool :=
  ((9 <=? c) && (c <=? 13) || (28 <=? c) && (c <=? 32) ||
   (c =? 133) || (c =? 160) || (c =? 5760) ||
   (8192 <=? c) && (c <=? 8202) || (c =? 8232) || (c =? 8233) ||
   (c =? 8239) || (c =? 8287) || (c =? 12288))%N.

Fixpoint lstrip (s : pystr) : pystr :=
  match s with
  | c :: s' => if isspace c then lstrip s' else s
  | [] => []
  end.

(** [s.strip()] *)
Definition strip (s : pystr) : pystr := rev (lstrip (rev (lstrip s))).

(** [s.replace(c, '')] for a one-character [c]. *)
Definition remove_char (c : N) (s : pystr) : pystr :=
  filter (fun d => negb (N.eqb d c)) s.

(** [s.upper()] on the ASCII letters (it is only applied to the literal
    ["GET"]). *)
Definition upper (s : pystr) : pystr :=
  map (fun c => if ((97 <=? c) && (c <=? 122))%N then (c - 32)%N else c) s.

(** ** Values *)

(** The values that travel through the client: what a caller can put in
    [params] and what [response.json()] can return. A [dict] keeps its
    insertion order; its keys are strings. *)
Inductive pyval : Type :=
| PyNone
| PyBool (b : bool)
| PyInt (z : Z)
| PyFloat (f : spec_float)
| PyStr (s : pystr)
| PyList (l : list pyval)
| PyDict (d : list (pystr * pyval)).

Definition pydict := list (pystr * pyval).

(** [d.get(key)], with [None] of Python as [None] of [option] when the key is
    absent. *)
Fixpoint dict_lookup (d : pydict) (key : pystr) : option pyval :=
  match d with
  | [] => None
  | (k, v) :: d' => if pystr_eqb k key then Some v else dict_lookup d' key
  end.

(** [d.get(key)]: an absent key gives the value [None]. *)
Definition dict_get (d : pydict) (key : pystr) : pyval :=
  match dict_lookup d key with Some v => v | None => PyNone end.

(** [d.get(key, default)] *)
Definition dict_get_default (d : pydict) (key : pystr) (default : pyval) : pyval :=
  match dict_lookup d key with Some v => v | None => default end.

(** [isinstance(v, str)], [isinstance(v, bool)], [isinstance(v, list)] *)
Definition isinstance_str (v : pyval) : bool :=
  match v with PyStr _ => true | _ => false end.
Definition isinstance_bool (v : pyval) : bool :=
  match v with PyBool _ => true | _ => false end.
Definition isinstance_list (v : pyval) : bool :=
  match v with PyList _ => true | _ => false end.

(** [v is None] *)
Definition is_none (v : pyval) : bool :=
  match v with PyNone => true | _ => false end.

(** *** Numbers and equality *)

(** The exact value of a number: not a number, an infinity, or [m * 2^e]. *)
Inductive extended : Type :=
| XNaN
| XInf (negative : bool)
| XFin (m e : Z).

Definition ext_of_float (f : spec_float) : extended :=
  match f with
  | S754_zero _ => XFin 0 0
  | S754_infinity s => XInf s
  | S754_nan => XNaN
  | S754_finite s m e => XFin (if s then Z.neg m else Z.pos m) e
  end.

(** Python compares [bool], [int] and [float] by their exact values. *)
Definition ext_compare (a b : extended) : option comparison :=
  match a, b with
  | XNaN, _ | _, XNaN => None
  | XInf s, XInf t => Some (if s then (if t then Eq else Lt) else (if t then Gt else Eq))
  | XInf s, XFin _ _ => Some (if s then Lt else Gt)
  | XFin _ _, XInf t => Some (if t then Gt else Lt)
  | XFin m1 e1, XFin m2 e2 =>
      let e := Z.min e1 e2 in
      Some (Z.compare (m1 * 2 ^ (e1 - e)) (m2 * 2 ^ (e2 - e)))
  end.

Definition numeric (v : pyval) : option extended :=
  match v with
  | PyBool b => Some (XFin (Z.b2z b) 0)
  | PyInt z => Some (XFin z 0)
  | PyFloat f => Some (ext_of_float f)
  | _ => None
  end.

(** [a == b] on values. Numbers are equal when their values are, whatever
    their types ([True == 1 == 1.0]); dicts are equal when they bind the same
    keys to equal values. Object identity is not modelled (it only matters
    for a NaN compared with itself). *)
Fixpoint py_eq (a b : pyval) : bool :=
  match a with
  | PyNone => is_none b
  | PyStr s => match b with PyStr t => pystr_eqb s t | _ => false end
  | PyList l =>
      match b with
      | PyList m =>
          (fix all2 (l m : list pyval) : bool :=
             match l, m with
             | [], [] => true
             | x :: l', y :: m' => py_eq x y && all2 l' m'
             | _, _ => false
             end) l m
      | _ => false
      end
  | PyDict d =>
      match b with
      | PyDict e =>
          Nat.eqb (List.length d) (List.length e) &&
          (fix sub (d : pydict) : bool :=
             match d with
             | [] => true
             | (k, v) :: d' =>
                 match dict_lookup e k with
                 | Some w => py_eq v w && sub d'
                 | None => false
                 end
             end) d
      | _ => false
      end
  | PyBool _ | PyInt _ | PyFloat _ =>
      match numeric a, numeric b with
      | Some x, Some y =>
          match ext_compare x y with Some Eq => true | _ => false end
      | _, _ => false
      end
  end.

(** [v in container] for a list or a tuple. *)
Definition py_in (v : pyval) (container : list pyval) : bool :=
  existsb (py_eq v) container.

(** [v == s] for a string literal [s]. *)
Definition eq_str (v : pyval) (s : pystr) : bool := py_eq v (PyStr s).

(** The truth value of [params] (an [Optional[Dict]]): [None] and the empty
    dict are false. *)
Definition truthy_params (params : option pydict) : bool :=
  match params with
  | None | Some [] => false
  | Some _ => true
  end.

(** ** Exceptions *)

(** The classes of [requests.exceptions] and their [isinstance] relation to
    the two classes the client names before [RequestException]. *)
Inductive requests_class : Type :=
| Timeout | ConnectTimeout | ReadTimeout
| ConnectionError | ProxyError | SSLError
| HTTPError | TooManyRedirects | InvalidURL | InvalidHeader
| ChunkedEncodingError | RequestException.

Definition isinstance_Timeout (c : requests_class) : bool :=
  match c with Timeout | ConnectTimeout | ReadTimeout => true | _ => false end.

Definition isinstance_ConnectionError (c : requests_class) : bool :=
  match c with
  | ConnectionError | ProxyError | SSLError | ConnectTimeout => true
  | _ => false
  end.

(** What can be raised. [ZipcodesAPIClientError(message, status_code,
    response)] and its subclass [ValidationError(errors)] are the client's
    own; an exception of [requests] carries its class and its [str(e)];
    [Uncaught] is any other exception of the interpreter, by name. *)
Inductive exn : Type :=
| ZipcodesAPIClientError (message : pyval) (status_code : option Z)
                         (response : option pyval)
| ValidationError (errors : list pystr)
| RequestsError (cls : requests_class) (text : pystr)
| Uncaught (name : string).

(** [ValidationError.__init__] builds the message it hands to its parent. *)
Definition validation_message (errors : list pystr) : pystr :=
  lit "Validation failed: " ++ join (lit " ") errors.

(** The [message], [status_code] and [response] attributes of one of the
    client's errors. *)
Definition exn_message (e : exn) : option pyval :=
  match e with
  | ZipcodesAPIClientError m _ _ => Some m
  | ValidationError errors => Some (PyStr (validation_message errors))
  | _ => None
  end.

Definition exn_status_code (e : exn) : option Z :=
  match e with ZipcodesAPIClientError _ c _ => c | _ => None end.

Definition exn_response (e : exn) : option pyval :=
  match e with ZipcodesAPIClientError _ _ r => r | _ => None end.

(** [isinstance(e, ZipcodesAPIClientError)] *)
Definition is_client_error (e : exn) : bool :=
  match e with
  | ZipcodesAPIClientError _ _ _ | ValidationError _ => true
  | _ => false
  end.

Inductive result (A : Type) : Type :=
| Ok (a : A)
| Raise (e : exn).
Arguments Ok {A} a.
Arguments Raise {A} e.

Definition bind {A B} (r : result A) (k : A -> result B) : result B :=
  match r with
  | Ok a => k a
  | Raise e => Raise e
  end.

Declare Scope result_scope.
Delimit Scope result_scope with result.
Notation "x <- c ;; k" := (bind c (fun x => k))
  (at level 61, c at next level, right associativity) : result_scope.
Notation "c ;;; k" := (bind c (fun _ => k))
  (at level 61, right associativity) : result_scope.

(** ** The API key *)

Definition key_char (c : N) : bool :=
  ((97 <=? c) && (c <=? 122) || (65 <=? c) && (c <=? 90) ||
   (48 <=? c) && (c <=? 57) || (c =? 95) || (c =? 45))%N.

(** One or more characters of the class [[a-zA-Z0-9_-]]. *)
Definition key_chars (s : pystr) : bool :=
  match s with
  | [] => false
  | _ => forallb key_char s
  end.

(** [re.match(r'^[a-zA-Z0-9_-]+$', s)] finds a match. Without [re.MULTILINE]
    the anchor [$] matches at the end of the string and also just before a
    newline that is its last character. *)
Definition re_match_key (s : pystr) : bool :=
  key_chars s ||
  match rev s with
  | c :: body => N.eqb c 10 && key_chars (rev body)
  | [] => false
  end.

Definition msg_key_required : pystr :=
  lit "API key is required. Get your API key at: https://apiverve.com".
Definition msg_key_format : pystr :=
  lit "Invalid API key format. API key should only contain letters, numbers, hyphens, and underscores. "
  ++ lit "Get your API key at: https://apiverve.com".
Definition msg_key_short : pystr :=
  lit "Invalid API key. API key appears to be too short. "
  ++ lit "Get your API key at: https://apiverve.com".

Definition client_error (message : pystr) : exn :=
  ZipcodesAPIClientError (PyStr message) None None.

Definition is_empty (s : pystr) : bool :=
  match s with [] => true | _ => false end.

Definition _validate_api_key (api_key : pystr) : result unit :=
  if is_empty api_key || is_empty (strip api_key) then
    Raise (client_error msg_key_required)
  else if negb (re_match_key api_key) then
    Raise (client_error msg_key_format)
  else
    let trimmed_key := remove_char 95 (remove_char 45 api_key) in
    if len trimmed_key <? 32 then
      Raise (client_error msg_key_short)
    else Ok tt.

(** ** The rule table *)

(** A bound of a rule ([min], [max]): an [int] or a [float]. *)
Inductive number : Type :=
| NumInt (z : Z)
| NumFloat (f : spec_float).

Definition num_ext (n : number) : extended :=
  match n with
  | NumInt z => XFin z 0
  | NumFloat f => ext_of_float f
  end.

(** [a < b] and [a > b] on numbers (false as soon as one is a NaN). *)
Definition num_lt (a b : number) : bool :=
  match ext_compare (num_ext a) (num_ext b) with Some Lt => true | _ => false end.
Definition num_gt (a b : number) : bool :=
  match ext_compare (num_ext a) (num_ext b) with Some Gt => true | _ => false end.

(** One entry of [VALIDATION_RULES]: the keys a rule dict may hold. An absent
    key is [None]; [r_required] is the truth value of [rules.get('required')]. *)
Record rule : Type := {
  r_type : option pystr;
  r_required : bool;
  r_min : option number;
  r_max : option number;
  r_minLength : option Z;
  r_maxLength : option Z;
  r_format : option pystr;
  r_enum : option (list pyval)
}.

Definition rule_table := list (pystr * rule).

(** [VALIDATION_RULES = {"zip": {"type": "string", "required": True,
    "minLength": 5, "maxLength": 5}}] *)
Definition VALIDATION_RULES : rule_table :=
  [ (lit "zip",
     {| r_type := Some (lit "string"); r_required := true;
        r_min := None; r_max := None;
        r_minLength := Some 5; r_maxLength := Some 5;
        r_format := None; r_enum := None |}) ].

Definition FORMAT_PATTERNS : list (pystr * pystr) :=
  [ (lit "email", lit "^[^\s@]+@[^\s@]+\.[^\s@]+$");
    (lit "url", lit "^https?://.+");
    (lit "ip", lit "^(?:(?:25[0-5]|2[0-4][0-9]|[01]?[0-9][0-9]?)\.){3}(?:25[0-5]|2[0-4][0-9]|[01]?[0-9][0-9]?)$|^([0-9a-fA-F]{1,4}:){7}[0-9a-fA-F]{1,4}$");
    (lit "date", lit "^\d{4}-\d{2}-\d{2}$");
    (lit "hexColor", lit "^#?([0-9a-fA-F]{3}|[0-9a-fA-F]{6})$") ].

Fixpoint pattern_of (patterns : list (pystr * pystr)) (name : pystr) : option pystr :=
  match patterns with
  | [] => None
  | (k, p) :: rest => if pystr_eqb k name then Some p else pattern_of rest name
  end.

(** ** The interpreter's builtins *)

(** The outcome of [int(v)] or [float(v)]: a number, a [ValueError] or
    [TypeError] (which the validator catches), or another exception (an
    [OverflowError], which it does not). *)
Inductive coercion (A : Type) : Type :=
| Coerced (a : A)
| ValueOrTypeError
| OtherError (name : string).
Arguments Coerced {A} a.
Arguments ValueOrTypeError {A}.
Arguments OtherError {A} name.

(** The functions of Python the client calls and this development leaves
    open: the two numeric conversions, [repr] (which [str] uses on floats
    and containers) and the search of a regular expression at the start of a
    string, ignoring case. Every theorem holds whatever they are. *)
Class Builtins : Type := {
  int_ : pyval -> coercion Z;
  float_ : pyval -> coercion spec_float;
  repr_ : pyval -> pystr;
  re_match_ignorecase : pystr -> pystr -> bool
}.

Section Validator.

Context {py : Builtins}.

(** [str(v)] *)
Definition str_ (v : pyval) : pystr :=
  match v with
  | PyStr s => s
  | PyInt z => str_int z
  | PyBool true => lit "True"
  | PyBool false => lit "False"
  | PyNone => lit "None"
  | _ => repr_ v
  end.

Definition str_number (n : number) : pystr :=
  match n with
  | NumInt z => str_int z
  | NumFloat f => repr_ (PyFloat f)
  end.

(** *** The messages *)

Definition msg_missing (param_name : pystr) : pystr :=
  lit "Required parameter [" ++ param_name ++ lit "] is missing.".
Definition msg_at_least (param_name bound : pystr) : pystr :=
  lit "Parameter [" ++ param_name ++ lit "] must be at least " ++ bound ++ lit ".".
Definition msg_at_most (param_name bound : pystr) : pystr :=
  lit "Parameter [" ++ param_name ++ lit "] must be at most " ++ bound ++ lit ".".
Definition msg_valid (param_name what : pystr) : pystr :=
  lit "Parameter [" ++ param_name ++ lit "] must be a valid " ++ what ++ lit ".".
Definition msg_string (param_name : pystr) : pystr :=
  lit "Parameter [" ++ param_name ++ lit "] must be a string.".
Definition msg_min_length (param_name bound : pystr) : pystr :=
  lit "Parameter [" ++ param_name ++ lit "] must be at least " ++ bound
  ++ lit " characters.".
Definition msg_max_length (param_name bound : pystr) : pystr :=
  lit "Parameter [" ++ param_name ++ lit "] must be at most " ++ bound
  ++ lit " characters.".
Definition msg_boolean (param_name : pystr) : pystr :=
  lit "Parameter [" ++ param_name ++ lit "] must be a boolean.".
Definition msg_array (param_name : pystr) : pystr :=
  lit "Parameter [" ++ param_name ++ lit "] must be an array.".
Definition msg_enum (param_name : pystr) (allowed : list pyval) : pystr :=
  lit "Parameter [" ++ param_name ++ lit "] must be one of: "
  ++ join (lit ", ") (map str_ allowed) ++ lit ".".

(** *** One iteration of the loop over the rule table *)

(** How the type-specific part of an iteration ends: it falls through to the
    enum check, or it leaves the iteration with [continue]. *)
Inductive flow : Type := FallThrough | Continue.

(** [errors.append(m)] when [violated]. *)
Definition append_if (violated : bool) (m : pystr) (errors : list pystr) : list pystr :=
  if violated then errors ++ [m] else errors.

(** The branch [param_type in ('integer', 'number')]: the [try] block. *)
Definition check_numeric (param_name : pystr) (rules : rule) (param_type : pystr)
    (value : pyval) (errors : list pystr) : result (flow * list pystr) :=
  let num_value :=
    if pystr_eqb param_type (lit "number") then
      match float_ value with
      | Coerced f => Coerced (NumFloat f)
      | ValueOrTypeError => ValueOrTypeError
      | OtherError n => OtherError n
      end
    else
      match int_ value with
      | Coerced z => Coerced (NumInt z)
      | ValueOrTypeError => ValueOrTypeError
      | OtherError n => OtherError n
      end in
  match num_value with
  | Coerced num_value =>
      let errors :=
        match r_min rules with
        | Some bound =>
            append_if (num_lt num_value bound)
                      (msg_at_least param_name (str_number bound)) errors
        | None => errors
        end in
      let errors :=
        match r_max rules with
        | Some bound =>
            append_if (num_gt num_value bound)
                      (msg_at_most param_name (str_number bound)) errors
        | None => errors
        end in
      Ok (FallThrough, errors)
  | ValueOrTypeError =>
      Ok (Continue, errors ++ [msg_valid param_name param_type])
  | OtherError n => Raise (Uncaught n)
  end.

(** The branch [param_type == 'string']. *)
Definition check_string (param_name : pystr) (rules : rule)
    (value : pyval) (errors : list pystr) : flow * list pystr :=
  match value with
  | PyStr s =>
      let errors :=
        match r_minLength rules with
        | Some bound =>
            append_if (len s <? bound)
                      (msg_min_length param_name (str_int bound)) errors
        | None => errors
        end in
      let errors :=
        match r_maxLength rules with
        | Some bound =>
            append_if (len s >? bound)
                      (msg_max_length param_name (str_int bound)) errors
        | None => errors
        end in
      let errors :=
        match r_format rules with
        | Some format =>
            match pattern_of FORMAT_PATTERNS format with
            | Some pattern =>
                append_if (negb (re_match_ignorecase pattern s))
                          (msg_valid param_name format) errors
            | None => errors
            end
        | None => errors
        end in
      (FallThrough, errors)
  | _ => (Continue, errors ++ [msg_string param_name])
  end.

(** The [if]/[elif] chain on [param_type]. *)
Definition check_type (param_name : pystr) (rules : rule)
    (value : pyval) (errors : list pystr) : result (flow * list pystr) :=
  let param_type :=
    match r_type rules with Some t => t | None => lit "string" end in
  if pystr_eqb param_type (lit "integer") || pystr_eqb param_type (lit "number") then
    check_numeric param_name rules param_type value errors
  else if pystr_eqb param_type (lit "string") then
    Ok (check_string param_name rules value errors)
  else if pystr_eqb param_type (lit "boolean") then
    Ok (FallThrough,
        append_if (negb (isinstance_bool value) &&
                   negb (py_in value [PyStr (lit "true"); PyStr (lit "false");
                                      PyBool true; PyBool false]))
                  (msg_boolean param_name) errors)
  else if pystr_eqb param_type (lit "array") then
    Ok (FallThrough,
        append_if (negb (isinstance_list value)) (msg_array param_name) errors)
  else Ok (FallThrough, errors).

(** The enum check that ends an iteration. *)
Definition check_enum (param_name : pystr) (rules : rule)
    (value : pyval) (errors : list pystr) : list pystr :=
  match r_enum rules with
  | Some allowed =>
      append_if (negb (py_in value allowed)) (msg_enum param_name allowed) errors
  | None => errors
  end.

(** The body of [for param_name, rules in self.VALIDATION_RULES.items()],
    from the list [errors] as it is before the iteration to the list after. *)
Definition check_param (params : pydict) (entry : pystr * rule)
    (errors : list pystr) : result (list pystr) :=
  let (param_name, rules) := entry in
  let value := dict_get params param_name in
  if r_required rules && (is_none value || eq_str value []) then
    Ok (errors ++ [msg_missing param_name])
  else if is_none value then
    Ok errors
  else
    (r <- check_type param_name rules value errors ;;
     match r with
     | (Continue, errors) => Ok errors
     | (FallThrough, errors) => Ok (check_enum param_name rules value errors)
     end)%result.

Fixpoint for_each_rule (params : pydict) (rules : rule_table)
    (errors : list pystr) : result (list pystr) :=
  match rules with
  | [] => Ok errors
  | entry :: rest =>
      (errors <- check_param params entry errors ;;
       for_each_rule params rest errors)%result
  end.

(** [params or {}] *)
Definition or_empty (params : option pydict) : pydict :=
  match params with Some d => d | None => [] end.

Definition _validate_params (RULES : rule_table) (params : option pydict)
    : result unit :=
  match RULES with
  | [] => Ok tt
  | _ =>
      let errors := [] in
      let params := or_empty params in
      (errors <- for_each_rule params RULES errors ;;
       match errors with
       | _ :: _ => Raise (ValidationError errors)
       | [] => Ok tt
       end)%result
  end.

End Validator.

(** ** The transport and the world *)

(** What [session.get] or [session.post] is called with. *)
Record request : Type := {
  req_method : pystr;
  req_url : pystr;
  req_headers : list (pystr * pystr);
  req_params : option (option pydict);
  req_json : option (option pydict);
  req_timeout : Z
}.

(** [response.json()] returns a value or raises a [ValueError]. *)
Inductive json_outcome : Type :=
| JsonValue (v : pyval)
| JsonValueError (text : pystr).

Record response : Type := {
  status_code : Z;
  json : json_outcome
}.

(** [response.ok] of [requests]: [raise_for_status()] does not raise, which it
    does exactly for the codes from 400 to 599. *)
Definition ok (r : response) : bool :=
  negb ((400 <=? status_code r) && (status_code r <? 600)).

(** How a call of [session.get] or [session.post] ends: with a response,
    with an exception of [requests] and its [str(e)], or with any other
    exception (the library raises a [UnicodeEncodeError] for a parameter it
    cannot encode, a [ValueError] for a header it refuses), by name. *)
Inductive sent : Type :=
| Responds (r : response)
| Fails (cls : requests_class) (text : pystr)
| Breaks (name : string).

(** The session and the network behind it, as one call finds them: how the
    call with these arguments ends. [execute] calls the session at most once,
    and the properties below hold for every transport, so that whatever the
    session has kept from earlier calls (cookies, connections) is part of the
    transport a call is run with; a second call is another run, with a
    transport of its own. *)
Definition transport := request -> sent.

(** What a call leaves behind: the texts printed, one per call of [print]
    that succeeded, and the calls made to the session, each with its
    arguments. Whether the library then sends a request for a call, and how
    many when it follows redirects, is the library's business and is not
    recorded. *)
Record world : Type := {
  stdout : list pystr;
  session_calls : list request
}.

Definition prog (A : Type) : Type := world -> result A * world.

Definition ret {A} (a : A) : prog A := fun w => (Ok a, w).
Definition raise {A} (e : exn) : prog A := fun w => (Raise e, w).
Definition lift {A} (r : result A) : prog A := fun w => (r, w).

Definition pbind {A B} (c : prog A) (k : A -> prog B) : prog B :=
  fun w =>
    match c w with
    | (Ok a, w') => k a w'
    | (Raise e, w') => (Raise e, w')
    end.

(** [try: body / except ...: handler]; [handler e] is [None] when no
    [except] clause matches [e]. *)
Definition try_except {A} (body : prog A) (handler : exn -> option (prog A))
    : prog A :=
  fun w =>
    match body w with
    | (Ok a, w') => (Ok a, w')
    | (Raise e, w') =>
        match handler e with
        | Some h => h w'
        | None => (Raise e, w')
        end
    end.

Declare Scope prog_scope.
Delimit Scope prog_scope with prog.
Notation "x <- c ;; k" := (pbind c (fun x => k))
  (at level 61, c at next level, right associativity) : prog_scope.
Notation "c ;;; k" := (pbind c (fun _ => k))
  (at level 61, right associativity) : prog_scope.

(** The standard output of the process, as [print] finds it:
    [print_raises text] is the exception that [print(text)] raises, if any (a
    [UnicodeEncodeError] when the stream's encoding has no bytes for the
    text, a [ValueError] when the stream is closed). *)
Class Console : Type := {
  print_raises : pystr -> option string
}.

(** [print(text)]: the text is written as a whole, or not at all. *)
Definition print {out : Console} (text : pystr) : prog unit :=
  fun w =>
    match print_raises text with
    | Some name => (Raise (Uncaught name), w)
    | None =>
        (Ok tt, {| stdout := stdout w ++ [text];
                   session_calls := session_calls w |})
    end.

(** A call of the session with the arguments [req]. *)
Definition send (net : transport) (req : request) : prog response :=
  fun w =>
    let w' := {| stdout := stdout w;
                 session_calls := session_calls w ++ [req] |} in
    match net req with
    | Responds r => (Ok r, w')
    | Fails cls text => (Raise (RequestsError cls text), w')
    | Breaks name => (Raise (Uncaught name), w')
    end.

(** ** The client *)

Record client : Type := {
  api_key : pystr;
  secure : bool;
  debug : bool;
  base_url : pystr;
  headers : list (pystr * pystr)
}.

(** [ZipcodesAPIClient(api_key, secure, debug)]; creating the session
    contacts nobody. *)
Definition __init__ (api_key : pystr) (secure debug : bool) : result client :=
  (_validate_api_key api_key ;;;
   Ok {| api_key := api_key;
         secure := secure;
         debug := debug;
         base_url := lit "https://api.apiverve.com/v1/zipcodes";
         headers := [ (lit "x-api-key", api_key);
                      (lit "auth-mode", lit "pypi-package") ] |})%result.

Section Client.

Context {py : Builtins} {out : Console}.

Definition _log (self : client) (message : pystr) : prog unit :=
  if debug self then print (lit "[ZipcodesAPIClient DEBUG] " ++ message)
  else ret tt.

(** [str(params)] inside an f-string. *)
Definition str_params (params : option pydict) : pystr :=
  match params with
  | Some d => repr_ (PyDict d)
  | None => lit "None"
  end.

(** The arguments of [self.session.get(self.base_url, params=params,
    timeout=30)], with the headers the session was given. *)
Definition get_request (self : client) (params : option pydict) : request :=
  {| req_method := lit "GET"; req_url := base_url self;
     req_headers := headers self;
     req_params := Some params; req_json := None;
     req_timeout := 30 |}.

(** [self.session.post(self.base_url, json=params, timeout=30)] *)
Definition post_request (self : client) (params : option pydict) : request :=
  {| req_method := lit "POST"; req_url := base_url self;
     req_headers := headers self;
     req_params := None; req_json := Some params;
     req_timeout := 30 |}.

Definition session_get (self : client) (net : transport)
    (params : option pydict) : prog response :=
  send net (get_request self params).

Definition session_post (self : client) (net : transport)
    (params : option pydict) : prog response :=
  send net (post_request self params).

(** [response_data.get(key)] and [response_data.get(key, default)]: only a
    dict has the method. *)
Definition get_ (response_data : pyval) (key : pystr) : prog pyval :=
  match response_data with
  | PyDict d => ret (dict_get d key)
  | _ => raise (Uncaught "AttributeError")
  end.

Definition get_default (response_data : pyval) (key : pystr) (default : pyval)
    : prog pyval :=
  match response_data with
  | PyDict d => ret (dict_get_default d key default)
  | _ => raise (Uncaught "AttributeError")
  end.

(** The three [except] clauses of [execute], in their order. *)
Definition on_requests_error (self : client) (e : exn) : option (prog pyval) :=
  match e with
  | RequestsError cls text =>
      if isinstance_Timeout cls then
        Some (_log self (lit "Request timeout: " ++ text) ;;;
              raise (client_error (lit "Request timeout: " ++ text)))%prog
      else if isinstance_ConnectionError cls then
        Some (_log self (lit "Connection error: " ++ text) ;;;
              raise (client_error (lit "Connection error: " ++ text)))%prog
      else
        Some (_log self (lit "Request exception: " ++ text) ;;;
              raise (client_error (lit "Request failed: " ++ text)))%prog
  | _ => None
  end.

(** The body of the [try] block of [execute]. *)
Definition request_and_classify (self : client) (net : transport)
    (method : pystr) (params : option pydict) : prog pyval :=
  (response <-
     (if pystr_eqb (upper method) (lit "POST") then
        _log self (lit "Sending POST request with JSON body") ;;;
        session_post self net params
      else
        _log self (lit "Sending GET request with query parameters") ;;;
        session_get self net params) ;;
   _log self (lit "Response status code: " ++ str_int (status_code response)) ;;;
   response_data <-
     match json response with
     | JsonValue v => ret v
     | JsonValueError text =>
         raise (ZipcodesAPIClientError
                  (PyStr (lit "Invalid JSON response from API: " ++ text))
                  (Some (status_code response)) None)
     end ;;
   status <- get_ response_data (lit "status") ;;
   (if eq_str status (lit "error") then
      error_message <-
        get_default response_data (lit "error") (PyStr (lit "Unknown API error")) ;;
      _log self (lit "API returned error: " ++ str_ error_message) ;;;
      raise (ZipcodesAPIClientError error_message
               (Some (status_code response)) (Some response_data))
    else ret tt) ;;;
   (if negb (ok response) then
      error_message <-
        get_default response_data (lit "error")
          (PyStr (lit "HTTP " ++ str_int (status_code response) ++ lit " error")) ;;
      _log self (lit "HTTP error: " ++ str_ error_message) ;;;
      raise (ZipcodesAPIClientError error_message
               (Some (status_code response)) (Some response_data))
    else ret tt) ;;;
   _log self (lit "Request successful") ;;;
   ret response_data)%prog.

Definition execute (self : client) (net : transport)
    (params : option pydict) : prog pyval :=
  (lift (_validate_params VALIDATION_RULES params) ;;;
   let method := lit "GET" in
   _log self (lit "Making " ++ method ++ lit " request to " ++ base_url self) ;;;
   (if truthy_params params then
      _log self (lit "Parameters: " ++ str_params params)
    else ret tt) ;;;
   try_except (request_and_classify self net method params)
              (on_requests_error self))%prog.

(** A caller's use of the class: build a client, call [execute] once in a
    world where nothing has been printed and the session has not been called
    yet. *)
Definition empty_world : world := {| stdout := []; session_calls := [] |}.

Definition construct_and_execute (api_key : pystr) (secure debug : bool)
    (net : transport) (params : option pydict) : result pyval * world :=
  match __init__ api_key secure debug with
  | Ok self => execute self net params empty_world
  | Raise e => (Raise e, empty_world)
  end.

End Client.

(** * Properties *)

Arguments lit : simpl never.
Arguments str_int : simpl never.

(** ** Strings and lookups *)

Lemma pystr_eqb_refl (s : pystr) : pystr_eqb s s = true.
Proof.
  induction s as [|c s IH]; simpl; [reflexivity|].
  now rewrite N.eqb_refl, IH.
Qed.

Lemma pystr_eqb_eq (s t : pystr) : pystr_eqb s t = true <-> s = t.
Proof.
  split.
  - revert t; induction s as [|c s IH]; intros [|d t]; simpl; try easy.
    intros H. apply andb_prop in H as [Hc Hs].
    apply N.eqb_eq in Hc. apply IH in Hs. now subst.
  - intros ->. apply pystr_eqb_refl.
Qed.

Lemma eq_str_spec (v : pyval) (s : pystr) :
  eq_str v s = true <-> v = PyStr s.
Proof.
  unfold eq_str.
  destruct v as [| b | z | f | t | l | d]; simpl; try (split; discriminate).
  rewrite pystr_eqb_eq. split; [now intros ->|now intros [= ->]].
Qed.

Lemma len_nonneg (s : pystr) : 0 <= len s.
Proof. unfold len. lia. Qed.

Lemma len_zero (s : pystr) : len s = 0 <-> s = [].
Proof.
  unfold len. destruct s; simpl; split; try easy; lia.
Qed.

(** ** The validator on the client's own table *)

Section ZipRule.

Context {py : Builtins}.

Definition zip : pystr := lit "zip".

(** What the single iteration over [VALIDATION_RULES] appends, by the value
    bound to [zip]. *)
Definition zip_errors (value : pyval) : list pystr :=
  match value with
  | PyNone => [msg_missing zip]
  | PyStr s =>
      if len s =? 0 then [msg_missing zip]
      else if len s <? 5 then [msg_min_length zip (lit "5")]
      else if len s >? 5 then [msg_max_length zip (lit "5")]
      else []
  | _ => [msg_string zip]
  end.

Lemma check_zip (params : pydict) (errors : list pystr) :
  for_each_rule params VALIDATION_RULES errors
  = Ok (errors ++ zip_errors (dict_get params zip)).
Proof.
  unfold VALIDATION_RULES, for_each_rule, check_param, bind. fold zip.
  cbn [r_required andb].
  destruct (dict_get params zip) as [| b | z | f | s | l | d] eqn:Hv;
    try reflexivity.
  cbn [is_none orb zip_errors].
  destruct (eq_str (PyStr s) []) eqn:E.
  - apply eq_str_spec in E. injection E as ->. reflexivity.
  - assert (Hs : (len s =? 0) = false).
    { apply Z.eqb_neq. intros H0. apply len_zero in H0. subst s.
      rewrite (proj2 (eq_str_spec _ _) eq_refl) in E. discriminate. }
    rewrite Hs.
    unfold check_type, check_string, check_enum, append_if.
    cbn [r_type r_minLength r_maxLength r_format r_enum].
    change (pystr_eqb (lit "string") (lit "integer")) with false.
    change (pystr_eqb (lit "string") (lit "number")) with false.
    change (pystr_eqb (lit "string") (lit "string")) with true.
    cbn [orb]. change (str_int 5) with (lit "5").
    destruct (len s <? 5) eqn:Hlt; destruct (len s >? 5) eqn:Hgt;
      try reflexivity.
    + apply Z.ltb_lt in Hlt. apply Z.gtb_lt in Hgt. lia.
    + now rewrite app_nil_r.
Qed.

End ZipRule.

(** ** The loop of the validator *)

Section Loop.

Context {py : Builtins}.

(** What one parameter contributes: what its iteration appends to an empty
    list. *)
Definition own_errors (params : pydict) (entry : pystr * rule)
    : result (list pystr) :=
  check_param params entry [].

(** The messages of all parameters, one parameter after the other in the
    order of the table. *)
Fixpoint violations (params : pydict) (rules : rule_table)
    : result (list pystr) :=
  match rules with
  | [] => Ok []
  | entry :: rest =>
      (own <- own_errors params entry ;;
       more <- violations params rest ;;
       Ok (own ++ more))%result
  end.

Definition map_result {A B} (f : A -> B) (r : result A) : result B :=
  match r with
  | Ok a => Ok (f a)
  | Raise e => Raise e
  end.

Lemma append_if_app (b : bool) (m : pystr) (errors : list pystr) :
  append_if b m errors = errors ++ append_if b m [].
Proof. destruct b; simpl; [reflexivity|now rewrite app_nil_r]. Qed.

(** Decide every [append_if] of the goal, then compare the two lists. *)
Ltac case_appends :=
  repeat match goal with
         | |- context [append_if ?b _ _] => destruct b; cbn [append_if]
         end;
  cbn [fst snd map_result];
  rewrite <- ?app_assoc, ?app_nil_r; try reflexivity.

Lemma check_numeric_app name rules ty value errors :
  check_numeric name rules ty value errors
  = map_result (fun r => (fst r, errors ++ snd r))
               (check_numeric name rules ty value []).
Proof.
  unfold check_numeric.
  destruct (if pystr_eqb ty (lit "number") then _ else _) as [num| |n];
    [|reflexivity..].
  destruct (r_min rules) as [lo|], (r_max rules) as [hi|]; case_appends.
Qed.

Lemma check_string_app name rules value errors :
  check_string name rules value errors
  = (fst (check_string name rules value []),
     errors ++ snd (check_string name rules value [])).
Proof.
  unfold check_string.
  destruct value; try reflexivity.
  destruct (r_minLength rules), (r_maxLength rules), (r_format rules) as [fm|];
    try destruct (pattern_of FORMAT_PATTERNS fm); case_appends.
Qed.

Lemma check_type_app name rules value errors :
  check_type name rules value errors
  = map_result (fun r => (fst r, errors ++ snd r))
               (check_type name rules value []).
Proof.
  unfold check_type.
  destruct (_ || _); [apply check_numeric_app|].
  destruct (pystr_eqb _ (lit "string")).
  { rewrite check_string_app. reflexivity. }
  destruct (pystr_eqb _ (lit "boolean")); [case_appends|].
  destruct (pystr_eqb _ (lit "array")); case_appends.
Qed.

Lemma check_enum_app name rules value errors :
  check_enum name rules value errors
  = errors ++ check_enum name rules value [].
Proof.
  unfold check_enum. destruct (r_enum rules); case_appends.
Qed.

(** An iteration only appends: the list it is given is kept as it is, in
    front of what the parameter contributes. *)
Lemma check_param_app params entry errors :
  check_param params entry errors
  = map_result (app errors) (own_errors params entry).
Proof.
  unfold own_errors, check_param. destruct entry as [name rules].
  destruct (r_required rules && _); [reflexivity|].
  destruct (is_none _); [simpl; now rewrite app_nil_r|].
  rewrite check_type_app.
  destruct (check_type name rules _ []) as [[[] own]|e]; simpl;
    try reflexivity.
  now rewrite check_enum_app, (check_enum_app _ _ _ own), app_assoc.
Qed.

Lemma for_each_rule_violations params rules errors :
  for_each_rule params rules errors
  = map_result (app errors) (violations params rules).
Proof.
  revert errors. induction rules as [|entry rest IH]; intros errors; simpl.
  - now rewrite app_nil_r.
  - rewrite check_param_app.
    destruct (own_errors params entry) as [own|e]; simpl; [|reflexivity].
    rewrite IH.
    destruct (violations params rest) as [more|e]; simpl; [|reflexivity].
    now rewrite app_assoc.
Qed.

(** The validator raises exactly when some parameter contributes a message,
    and then with all of them. *)
Lemma validate_params_violations rules params :
  _validate_params rules params
  = match violations (or_empty params) rules with
    | Ok [] => Ok tt
    | Ok errors => Raise (ValidationError errors)
    | Raise e => Raise e
    end.
Proof.
  unfold _validate_params. destruct rules as [|entry rest]; [reflexivity|].
  rewrite for_each_rule_violations.
  destruct (violations _ _) as [[|m errors]|e]; reflexivity.
Qed.

(** On the client's table no iteration can fail otherwise than by appending a
    message. *)
Lemma violations_zip params :
  violations params VALIDATION_RULES = Ok (zip_errors (dict_get params zip)).
Proof.
  pose proof (check_zip params []) as H.
  rewrite for_each_rule_violations in H.
  destruct (violations params VALIDATION_RULES); simpl in H; congruence.
Qed.

Lemma validate_zip params :
  _validate_params VALIDATION_RULES params
  = match zip_errors (dict_get (or_empty params) zip) with
    | [] => Ok tt
    | errors => Raise (ValidationError errors)
    end.
Proof.
  rewrite validate_params_violations, violations_zip.
  now destruct (zip_errors _).
Qed.

(** Nothing a parameter contributes is lost, wherever it stands in the
    table. *)
Lemma violations_incl params rules entry own errors :
  In entry rules ->
  own_errors params entry = Ok own ->
  violations params rules = Ok errors ->
  incl own errors.
Proof.
  revert errors. induction rules as [|first rest IH]; intros errors Hin Hown Hall.
  - destruct Hin.
  - simpl in Hall.
    destruct (own_errors params first) as [own1|] eqn:H1; [|discriminate].
    destruct (violations params rest) as [more|] eqn:H2; [|discriminate].
    simpl in Hall. injection Hall as <-.
    destruct Hin as [->|Hin].
    + rewrite Hown in H1. injection H1 as <-. now apply incl_appl.
    + apply incl_appr. now apply IH.
Qed.

(** *** The enum check *)

(** A value is supplied for a parameter: it is not [None], and not the empty
    string when the parameter is required. Otherwise the iteration ends before
    any check of the value. *)
Definition supplied (rules : rule) (value : pyval) : bool :=
  negb (is_none value) && negb (r_required rules && eq_str value []).

(** The type-specific checks reach the enum check: the conversion of an
    integer or a number succeeds, the value of a string parameter is a string;
    the checks of the other types never leave the iteration. *)
Definition reaches_enum_check (rules : rule) (value : pyval) : bool :=
  let param_type :=
    match r_type rules with Some t => t | None => lit "string" end in
  if pystr_eqb param_type (lit "number") then
    match float_ value with Coerced _ => true | _ => false end
  else if pystr_eqb param_type (lit "integer") then
    match int_ value with Coerced _ => true | _ => false end
  else if pystr_eqb param_type (lit "string") then isinstance_str value
  else true.

Lemma check_type_falls_through name rules value :
  reaches_enum_check rules value = true ->
  exists own, check_type name rules value [] = Ok (FallThrough, own).
Proof.
  unfold reaches_enum_check, check_type, check_numeric, check_string.
  set (ty := match r_type rules with Some t => t | None => lit "string" end).
  destruct (pystr_eqb ty (lit "number")) eqn:Hn.
  - rewrite orb_true_r.
    destruct (float_ value); try discriminate. eauto.
  - rewrite orb_false_r.
    destruct (pystr_eqb ty (lit "integer")) eqn:Hi.
    + destruct (int_ value); try discriminate. eauto.
    + destruct (pystr_eqb ty (lit "string")).
      * destruct value; try discriminate. eauto.
      * destruct (pystr_eqb ty (lit "boolean")); [eauto|].
        destruct (pystr_eqb ty (lit "array")); eauto.
Qed.

Lemma own_errors_enum params name rules allowed :
  let value := dict_get params name in
  r_enum rules = Some allowed ->
  supplied rules value = true ->
  reaches_enum_check rules value = true ->
  py_in value allowed = false ->
  exists own, own_errors params (name, rules) = Ok own
              /\ In (msg_enum name allowed) own.
Proof.
  intros value Henum Hsup Hreach Hnotin.
  unfold own_errors, check_param. fold value.
  unfold supplied in Hsup. apply andb_prop in Hsup as [Hnone Hreq].
  apply negb_true_iff in Hnone, Hreq.
  rewrite Hnone in *. rewrite orb_false_l in *. rewrite Hreq.
  destruct (check_type_falls_through name rules value Hreach) as [own Hown].
  rewrite Hown. simpl.
  exists (check_enum name rules value own). split; [reflexivity|].
  unfold check_enum. rewrite Henum, Hnotin. simpl.
  apply in_or_app. right. now left.
Qed.

Lemma for_each_rule_from_empty params rules :
  for_each_rule params rules [] = violations params rules.
Proof.
  rewrite for_each_rule_violations. now destruct (violations params rules).
Qed.

(** Where the enum check is not reached: after a conversion that failed and
    for a string parameter whose value is not a string, the iteration ends
    with the type message alone, whatever the rule's enum set. *)
Lemma enum_skipped_after_failed_conversion params name rules :
  let value := dict_get params name in
  supplied rules value = true ->
  r_type rules = Some (lit "integer") ->
  int_ value = ValueOrTypeError ->
  own_errors params (name, rules) = Ok [msg_valid name (lit "integer")].
Proof.
  intros value Hsup Hty Hint.
  unfold own_errors, check_param. fold value.
  unfold supplied in Hsup. apply andb_prop in Hsup as [Hnone Hreq].
  apply negb_true_iff in Hnone, Hreq.
  rewrite Hnone in *. rewrite orb_false_l in *. rewrite Hreq.
  unfold check_type, check_numeric. rewrite Hty.
  change (pystr_eqb (lit "integer") (lit "integer")) with true.
  change (pystr_eqb (lit "integer") (lit "number")) with false.
  cbn [orb]. now rewrite Hint.
Qed.

Lemma enum_skipped_for_non_string params name rules :
  let value := dict_get params name in
  supplied rules value = true ->
  r_type rules = Some (lit "string") \/ r_type rules = None ->
  isinstance_str value = false ->
  own_errors params (name, rules) = Ok [msg_string name].
Proof.
  intros value Hsup Hty Hstr.
  unfold own_errors, check_param. fold value.
  unfold supplied in Hsup. apply andb_prop in Hsup as [Hnone Hreq].
  apply negb_true_iff in Hnone, Hreq.
  rewrite Hnone in *. rewrite orb_false_l in *. rewrite Hreq.
  assert (Hc : check_type name rules value [] = Ok (Continue, [msg_string name])).
  { unfold check_type, check_string.
    destruct Hty as [-> | ->];
      change (pystr_eqb (lit "string") (lit "integer")) with false;
      change (pystr_eqb (lit "string") (lit "number")) with false;
      change (pystr_eqb (lit "string") (lit "string")) with true;
      cbn [orb]; now destruct value. }
  now rewrite Hc.
Qed.

(** *** The violations, constraint by constraint *)

(** The constraints a rule can put on a value. *)
Inductive constraint : Type :=
| IsRequired | HasType | Minimum | Maximum
| MinLength | MaxLength | Format | OneOf.

(** The type tag of a rule, a string when the rule names none. *)
Definition type_tag (r : rule) : pystr :=
  match r_type r with Some t => t | None => lit "string" end.

Definition is_numeric (r : rule) : bool :=
  pystr_eqb (type_tag r) (lit "integer") || pystr_eqb (type_tag r) (lit "number").

(** The numeric coercion of the value: a floating parse for a number, an
    integer parse for an integer. *)
Definition converted (r : rule) (value : pyval) : coercion number :=
  if pystr_eqb (type_tag r) (lit "number") then
    match float_ value with
    | Coerced f => Coerced (NumFloat f)
    | ValueOrTypeError => ValueOrTypeError
    | OtherError n => OtherError n
    end
  else
    match int_ value with
    | Coerced z => Coerced (NumInt z)
    | ValueOrTypeError => ValueOrTypeError
    | OtherError n => OtherError n
    end.

(** Whether a value fails a constraint of a rule. A constraint the rule does
    not configure is failed by no value. *)
Definition fails (r : rule) (value : pyval) (c : constraint) : bool :=
  match c with
  | IsRequired => r_required r && (is_none value || eq_str value [])
  | HasType =>
      if is_numeric r then
        match converted r value with Coerced _ => false | _ => true end
      else if pystr_eqb (type_tag r) (lit "string") then
        negb (isinstance_str value)
      else if pystr_eqb (type_tag r) (lit "boolean") then
        negb (isinstance_bool value)
        && negb (py_in value [PyStr (lit "true"); PyStr (lit "false");
                              PyBool true; PyBool false])
      else if pystr_eqb (type_tag r) (lit "array") then
        negb (isinstance_list value)
      else false
  | Minimum =>
      match r_min r, converted r value with
      | Some bound, Coerced n => num_lt n bound
      | _, _ => false
      end
  | Maximum =>
      match r_max r, converted r value with
      | Some bound, Coerced n => num_gt n bound
      | _, _ => false
      end
  | MinLength =>
      match r_minLength r, value with
      | Some bound, PyStr s => len s <? bound
      | _, _ => false
      end
  | MaxLength =>
      match r_maxLength r, value with
      | Some bound, PyStr s => len s >? bound
      | _, _ => false
      end
  | Format =>
      match r_format r, value with
      | Some format, PyStr s =>
          match pattern_of FORMAT_PATTERNS format with
          | Some pattern => negb (re_match_ignorecase pattern s)
          | None => false
          end
      | _, _ => false
      end
  | OneOf =>
      match r_enum r with
      | Some allowed => negb (py_in value allowed)
      | None => false
      end
  end.

(** The message for a failed constraint. *)
Definition message_of (name : pystr) (r : rule) (c : constraint) : pystr :=
  match c with
  | IsRequired => msg_missing name
  | HasType =>
      if is_numeric r then msg_valid name (type_tag r)
      else if pystr_eqb (type_tag r) (lit "string") then msg_string name
      else if pystr_eqb (type_tag r) (lit "boolean") then msg_boolean name
      else msg_array name
  | Minimum =>
      match r_min r with
      | Some bound => msg_at_least name (str_number bound)
      | None => []
      end
  | Maximum =>
      match r_max r with
      | Some bound => msg_at_most name (str_number bound)
      | None => []
      end
  | MinLength =>
      match r_minLength r with
      | Some bound => msg_min_length name (str_int bound)
      | None => []
      end
  | MaxLength =>
      match r_maxLength r with
      | Some bound => msg_max_length name (str_int bound)
      | None => []
      end
  | Format =>
      match r_format r with
      | Some format => msg_valid name format
      | None => []
      end
  | OneOf =>
      match r_enum r with
      | Some allowed => msg_enum name allowed
      | None => []
      end
  end.

(** The constraints looked at for a value, in their order: a missing
    required value ends the checks of the parameter; so does an absent
    optional one; then come the checks of the type, where a coercion that
    fails, or a value that is no string for a string, ends the checks too;
    the enum check is the last. *)
Definition examined (r : rule) (value : pyval) : list constraint :=
  if fails r value IsRequired then [IsRequired]
  else if is_none value then []
  else if is_numeric r then
    if fails r value HasType then [HasType] else [Minimum; Maximum; OneOf]
  else if pystr_eqb (type_tag r) (lit "string") then
    if fails r value HasType then [HasType]
    else [MinLength; MaxLength; Format; OneOf]
  else if pystr_eqb (type_tag r) (lit "boolean")
          || pystr_eqb (type_tag r) (lit "array") then [HasType; OneOf]
  else [OneOf].

(** The messages of one parameter: one for each constraint looked at that the
    value fails, in the order of the constraints. The coercion of a supplied
    value can also end with an exception that is neither a [ValueError] nor a
    [TypeError]; it is then the outcome. *)
Definition parameter_violations (name : pystr) (r : rule) (value : pyval)
    : result (list pystr) :=
  match (if supplied r value && is_numeric r then converted r value
         else ValueOrTypeError) with
  | OtherError n => Raise (Uncaught n)
  | _ => Ok (map (message_of name r) (filter (fails r value) (examined r value)))
  end.

(** The messages of all parameters, in the order of the rule table. *)
Fixpoint all_violations (params : pydict) (rules : rule_table)
    : result (list pystr) :=
  match rules with
  | [] => Ok []
  | (name, r) :: rest =>
      (own <- parameter_violations name r (dict_get params name) ;;
       more <- all_violations params rest ;;
       Ok (own ++ more))%result
  end.

Lemma examined_NoDup (r : rule) (value : pyval) : NoDup (examined r value).
Proof.
  unfold examined.
  repeat match goal with
         | |- NoDup (if ?b then _ else _) => destruct b
         end;
    repeat (constructor; [simpl; intuition discriminate|]); constructor.
Qed.

(** The iteration of the loop for a parameter appends the messages of the
    constraints its value fails, and nothing else. *)
Lemma own_errors_parameter_violations (params : pydict) (name : pystr)
    (r : rule) :
  own_errors params (name, r)
  = parameter_violations name r (dict_get params name).
Proof.
  unfold own_errors, check_param, parameter_violations, examined, supplied.
  generalize (dict_get params name). intros value.
  unfold check_type, check_numeric, check_string, check_enum, message_of.
  unfold fails, is_numeric, converted, type_tag, append_if, bind.
  set (ty := match r_type r with Some t => t | None => lit "string" end).
  destruct (r_required r), (is_none value) eqn:Hnone, (eq_str value []);
    cbn [andb orb negb filter map app]; try reflexivity.
  all: destruct (pystr_eqb ty (lit "integer") || pystr_eqb ty (lit "number")).
  all: try (destruct (if pystr_eqb ty (lit "number") then _ else _)
              as [num| |n]; try reflexivity).
  all: try (destruct (pystr_eqb ty (lit "string"));
            [destruct value; try discriminate|]).
  all: try destruct (pystr_eqb ty (lit "boolean")).
  all: try destruct (pystr_eqb ty (lit "array")).
  all: cbn [andb orb negb filter map app isinstance_str].
  all: repeat match goal with
              | |- context [match ?x with Some _ => _ | None => _ end] =>
                  destruct x
              | |- context [if ?b then _ else _] => destruct b
              end; cbn [filter map app]; try reflexivity.
Qed.

Lemma violations_all_violations (params : pydict) (rules : rule_table) :
  violations params rules = all_violations params rules.
Proof.
  induction rules as [|[name r] rest IH]; [reflexivity|].
  cbn [violations all_violations].
  now rewrite own_errors_parameter_violations, IH.
Qed.

(** The one rule of the client's table. *)
Definition zip_rule : rule :=
  {| r_type := Some (lit "string"); r_required := true;
     r_min := None; r_max := None;
     r_minLength := Some 5; r_maxLength := Some 5;
     r_format := None; r_enum := None |}.

(** On the client's table the coercions are not called. *)
Lemma all_violations_zip (params : pydict) :
  VALIDATION_RULES = [(zip, zip_rule)]
  /\ all_violations params VALIDATION_RULES
     = Ok (map (message_of zip zip_rule)
               (filter (fails zip_rule (dict_get params zip))
                       (examined zip_rule (dict_get params zip)))).
Proof.
  split; [reflexivity|].
  unfold VALIDATION_RULES. fold zip. fold zip_rule.
  cbn [all_violations bind]. unfold parameter_violations.
  change (is_numeric zip_rule) with false. rewrite andb_false_r.
  cbn [bind]. now rewrite app_nil_r.
Qed.

(** C8: for every params mapping the validator either accepts or raises a
    [ValidationError] that carries the whole ordered list of the violation
    messages of all parameters, one per failing constraint, in the order of
    the rule table; it does not stop at the first violation. For every rule
    table: the list is, parameter after parameter in table order, the
    messages of the constraints that are looked at for the parameter's value
    and that the value fails, each constraint once; the validator accepts
    when the list is empty and raises a [ValidationError] with the whole list
    otherwise. The only other outcome is an exception of [int()] or
    [float()] that is neither a [ValueError] nor a [TypeError], which the
    client's own table, with its one string parameter, cannot produce. *)
Theorem C8_validator_accumulates_all_violations
    (rules : rule_table) (params : option pydict) :
  _validate_params rules params
  = match all_violations (or_empty params) rules with
    | Ok [] => Ok tt
    | Ok errors => Raise (ValidationError errors)
    | Raise e => Raise e
    end
  /\ (forall r value, NoDup (examined r value))
  /\ VALIDATION_RULES = [(zip, zip_rule)]
  /\ _validate_params VALIDATION_RULES params
     = match map (message_of zip zip_rule)
                 (filter (fails zip_rule (dict_get (or_empty params) zip))
                         (examined zip_rule (dict_get (or_empty params) zip)))
       with
       | [] => Ok tt
       | errors => Raise (ValidationError errors)
       end.
Proof.
  split; [|split; [|split]].
  - rewrite validate_params_violations. now rewrite violations_all_violations.
  - apply examined_NoDup.
  - reflexivity.
  - rewrite validate_params_violations, violations_all_violations.
    rewrite (proj2 (all_violations_zip (or_empty params))).
    now destruct (map _ _).
Qed.

(** *** The enum check, reached or skipped *)

(** The type-specific checks leave the iteration before the enum check: the
    conversion of an integer or a number failed with a [ValueError] or a
    [TypeError], or the value of a string parameter is not a string. *)
Definition skips_enum_check (r : rule) (value : pyval) : bool :=
  if is_numeric r then
    match converted r value with ValueOrTypeError => true | _ => false end
  else if pystr_eqb (type_tag r) (lit "string") then negb (isinstance_str value)
  else false.

Lemma msg_valid_is_no_enum_message (name what : pystr) (allowed : list pyval) :
  msg_valid name what <> msg_enum name allowed.
Proof.
  unfold msg_valid, msg_enum. intros H.
  apply app_inv_head in H. apply app_inv_head in H.
  vm_compute in H. discriminate H.
Qed.

Lemma msg_string_is_no_enum_message (name : pystr) (allowed : list pyval) :
  msg_string name <> msg_enum name allowed.
Proof.
  unfold msg_string, msg_enum. intros H.
  apply app_inv_head in H. apply app_inv_head in H.
  vm_compute in H. discriminate H.
Qed.

Lemma check_param_skips_enum (params : pydict) (name : pystr) (r : rule)
    (errors : list pystr) :
  let value := dict_get params name in
  supplied r value = true ->
  skips_enum_check r value = true ->
  check_param params (name, r) errors
  = Ok (errors ++ [if is_numeric r then msg_valid name (type_tag r)
                   else msg_string name]).
Proof.
  intros value Hsup Hskip.
  unfold supplied in Hsup. apply andb_prop in Hsup as [Hnone Hreq].
  apply negb_true_iff in Hnone, Hreq.
  unfold check_param. fold value.
  rewrite Hnone in *. rewrite orb_false_l in *. rewrite Hreq.
  revert Hskip.
  unfold skips_enum_check, check_type, check_numeric, check_string,
    is_numeric, converted, type_tag.
  set (ty := match r_type r with Some t => t | None => lit "string" end).
  destruct (pystr_eqb ty (lit "integer") || pystr_eqb ty (lit "number")).
  - destruct (if pystr_eqb ty (lit "number") then _ else _) as [num| |n];
      intros H; try discriminate H. reflexivity.
  - destruct (pystr_eqb ty (lit "string")); intros H; [|discriminate H].
    destruct value; try discriminate H; reflexivity.
Qed.

(** C6, as the code has it. For a parameter whose rule declares an enum set
    and for which a value is supplied (not [None], and not the empty string
    when the parameter is required) that is not a member of the set: when the
    type-specific checks reach the enum check (the conversion of an integer
    or number succeeded, the value of a string parameter is a string, or the
    type is boolean, array or any other, whose check never leaves the
    iteration), the validator does not accept the params, and when the loop
    over the table runs to its end (no conversion raises an exception other
    than [ValueError] and [TypeError], which would end the validator), the
    [ValidationError] raised holds the enum-violation message; when the
    conversion of an integer or number fails with a [ValueError] or
    [TypeError], or the value of a string parameter is not a string, the
    iteration appends the type-mismatch message alone and the enum check is
    skipped. *)
Theorem C6_enum_checked_when_type_checks_fall_through
    (rules : rule_table) (params : option pydict)
    (name : pystr) (r : rule) (allowed : list pyval) :
  let value := dict_get (or_empty params) name in
  In (name, r) rules ->
  r_enum r = Some allowed ->
  supplied r value = true ->
  py_in value allowed = false ->
  (reaches_enum_check r value = true ->
   _validate_params rules params <> Ok tt
   /\ forall errors,
        for_each_rule (or_empty params) rules [] = Ok errors ->
        In (msg_enum name allowed) errors
        /\ _validate_params rules params = Raise (ValidationError errors))
  /\ (skips_enum_check r value = true ->
      forall errors, exists type_message,
        check_param (or_empty params) (name, r) errors
        = Ok (errors ++ [type_message])
        /\ type_message <> msg_enum name allowed).
Proof.
  intros value Hin Henum Hsup Hnotin. split.
  - intros Hreach.
    destruct (own_errors_enum (or_empty params) name r allowed
                Henum Hsup Hreach Hnotin) as [own [Hown Hmsg]].
    assert (Hall : forall errors,
              violations (or_empty params) rules = Ok errors ->
              In (msg_enum name allowed) errors)
      by (intros errors Hall; eapply violations_incl; eauto).
    split.
    + rewrite validate_params_violations.
      destruct (violations (or_empty params) rules) as [errors|e];
        [|discriminate].
      specialize (Hall errors eq_refl).
      destruct errors; [destruct Hall|discriminate].
    + intros errors Hloop. rewrite for_each_rule_from_empty in Hloop.
      specialize (Hall errors Hloop). split; [exact Hall|].
      rewrite validate_params_violations, Hloop.
      destruct errors; [destruct Hall|reflexivity].
  - intros Hskip errors.
    rewrite (check_param_skips_enum (or_empty params) name r errors Hsup Hskip).
    eexists. split; [reflexivity|].
    destruct (is_numeric r);
      [apply msg_valid_is_no_enum_message|apply msg_string_is_no_enum_message].
Qed.

End Loop.

(** ** The outcome of [execute] *)

Section Outcome.

Context {py : Builtins} {out : Console}.

(** The exception [_log] raises for a message, if any: it prints only when
    [debug] is on. *)
Definition log_raises (self : client) (message : pystr) : option string :=
  if debug self then print_raises (lit "[ZipcodesAPIClient DEBUG] " ++ message)
  else None.

(** The first exception [_log] raises for a list of messages. *)
Fixpoint log_refusal (self : client) (messages : list pystr) : option string :=
  match messages with
  | [] => None
  | message :: rest =>
      match log_raises self message with
      | Some name => Some name
      | None => log_refusal self rest
      end
  end.

(** [_log] goes through with each of the messages: [debug] is off, or
    [print] takes each of the texts. *)
Definition can_log (self : client) (messages : list pystr) : Prop :=
  debug self = false
  \/ Forall (fun message =>
              print_raises (lit "[ZipcodesAPIClient DEBUG] " ++ message) = None)
            messages.

Lemma can_log_refusal (self : client) (messages : list pystr) :
  can_log self messages <-> log_refusal self messages = None.
Proof.
  unfold can_log. induction messages as [|m rest IH]; cbn [log_refusal].
  - split; auto.
  - unfold log_raises at 1. rewrite Forall_cons_iff.
    destruct (debug self) eqn:Hd.
    + destruct (print_raises (lit "[ZipcodesAPIClient DEBUG] " ++ m)) eqn:Hp.
      * split; [|discriminate]. intros [H|[H _]]; discriminate.
      * rewrite <- IH. split.
        -- intros [H|[_ H]]; [discriminate|]. now right.
        -- intros [H|H]; [discriminate|]. right. now split.
    + rewrite <- IH. split; auto.
Qed.

Lemma log_refusal_app (self : client) (first rest : list pystr) :
  log_refusal self (first ++ rest)
  = match log_refusal self first with
    | Some name => Some name
    | None => log_refusal self rest
    end.
Proof.
  induction first as [|m first IH]; simpl; [reflexivity|].
  now destruct (log_raises self m).
Qed.

(** What [execute] logs before it calls the session. *)
Definition request_log (self : client) (params : option pydict)
    : list pystr :=
  [lit "Making GET request to " ++ base_url self]
  ++ (if truthy_params params
      then [lit "Parameters: " ++ str_params params] else [])
  ++ [lit "Sending GET request with query parameters"].

(** What [execute] makes of a response when nothing is printed, and what it
    logs on the way. *)
Definition classify (r : response) : result pyval :=
  match json r with
  | JsonValueError text =>
      Raise (ZipcodesAPIClientError
               (PyStr (lit "Invalid JSON response from API: " ++ text))
               (Some (status_code r)) None)
  | JsonValue (PyDict envelope) =>
      if eq_str (dict_get envelope (lit "status")) (lit "error") then
        Raise (ZipcodesAPIClientError
                 (dict_get_default envelope (lit "error")
                    (PyStr (lit "Unknown API error")))
                 (Some (status_code r)) (Some (PyDict envelope)))
      else if negb (ok r) then
        Raise (ZipcodesAPIClientError
                 (dict_get_default envelope (lit "error")
                    (PyStr (lit "HTTP " ++ str_int (status_code r) ++ lit " error")))
                 (Some (status_code r)) (Some (PyDict envelope)))
      else Ok (PyDict envelope)
  | JsonValue _ => Raise (Uncaught "AttributeError")
  end.

Definition response_log (r : response) : list pystr :=
  [lit "Response status code: " ++ str_int (status_code r)]
  ++ match json r with
     | JsonValue (PyDict envelope) =>
         if eq_str (dict_get envelope (lit "status")) (lit "error") then
           [lit "API returned error: "
            ++ str_ (dict_get_default envelope (lit "error")
                       (PyStr (lit "Unknown API error")))]
         else if negb (ok r) then
           [lit "HTTP error: "
            ++ str_ (dict_get_default envelope (lit "error")
                       (PyStr (lit "HTTP " ++ str_int (status_code r)
                               ++ lit " error")))]
         else [lit "Request successful"]
     | _ => []
     end.

(** The message of the error [execute] raises for an exception of
    [requests], and what it logs before. *)
Definition transport_failure_message (cls : requests_class) (text : pystr)
    : pystr :=
  (if isinstance_Timeout cls then lit "Request timeout: "
   else if isinstance_ConnectionError cls then lit "Connection error: "
   else lit "Request failed: ") ++ text.

Definition transport_failure_log (cls : requests_class) (text : pystr)
    : pystr :=
  (if isinstance_Timeout cls then lit "Request timeout: "
   else if isinstance_ConnectionError cls then lit "Connection error: "
   else lit "Request exception: ") ++ text.

(** What a call of [execute] returns or raises when nothing is printed or
    every text is printed. *)
Definition outcome (self : client) (net : transport) (params : option pydict)
    : result pyval :=
  match _validate_params VALIDATION_RULES params with
  | Raise e => Raise e
  | Ok _ =>
      match net (get_request self params) with
      | Responds r => classify r
      | Fails cls text => Raise (client_error (transport_failure_message cls text))
      | Breaks name => Raise (Uncaught name)
      end
  end.

(** The messages a call of [execute] hands to [_log], as long as each is
    printed. *)
Definition call_log (self : client) (net : transport) (params : option pydict)
    : list pystr :=
  match _validate_params VALIDATION_RULES params with
  | Raise _ => []
  | Ok _ =>
      request_log self params
      ++ match net (get_request self params) with
         | Responds r => response_log r
         | Fails cls text => [transport_failure_log cls text]
         | Breaks _ => []
         end
  end.

(** The calls of the session a call of [execute] makes. *)
Definition calls_made (self : client) (params : option pydict)
    : list request :=
  match _validate_params VALIDATION_RULES params with
  | Raise _ => []
  | Ok _ =>
      match log_refusal self (request_log self params) with
      | Some _ => []
      | None => [get_request self params]
      end
  end.

Lemma method_is_not_post : pystr_eqb (upper (lit "GET")) (lit "POST") = false.
Proof. reflexivity. Qed.

Lemma run_log (self : client) (message : pystr) (w : world) :
  _log self message w
  = match log_raises self message with
    | Some name => (Raise (Uncaught name), w)
    | None =>
        (Ok tt,
         {| stdout := if debug self
                      then stdout w
                           ++ [lit "[ZipcodesAPIClient DEBUG] " ++ message]
                      else stdout w;
            session_calls := session_calls w |})
    end.
Proof.
  unfold _log, log_raises, print, ret.
  destruct (debug self); [|now destruct w].
  now destruct (print_raises _).
Qed.

(** Run [_log] in the goal, and follow both of its outcomes. *)
Ltac log_step :=
  match goal with
  | |- context [_log ?self ?m ?w] =>
      rewrite (run_log self m w);
      cbn [log_refusal];
      destruct (log_raises self m);
      cbn [fst snd session_calls stdout];
      [try (split; [reflexivity|now rewrite ?app_nil_r])|]
  end.

(** The [try] statement of [execute], run in any world. *)
Lemma try_outcome (self : client) (net : transport)
    (params : option pydict) (w : world) :
  let run := try_except (request_and_classify self net (lit "GET") params)
                        (on_requests_error self) w in
  fst run
  = match log_refusal self
            ([lit "Sending GET request with query parameters"]
             ++ match net (get_request self params) with
                | Responds r => response_log r
                | Fails cls text => [transport_failure_log cls text]
                | Breaks _ => []
                end) with
    | Some name => Raise (Uncaught name)
    | None =>
        match net (get_request self params) with
        | Responds r => classify r
        | Fails cls text =>
            Raise (client_error (transport_failure_message cls text))
        | Breaks name => Raise (Uncaught name)
        end
    end
  /\ session_calls (snd run)
     = session_calls w
       ++ match log_raises self
                  (lit "Sending GET request with query parameters") with
          | Some _ => []
          | None => [get_request self params]
          end.
Proof.
  cbv zeta. unfold try_except, request_and_classify, pbind.
  rewrite method_is_not_post. cbn [app].
  log_step.
  unfold session_get, send. cbn [stdout session_calls].
  destruct (net (get_request self params)) as [r|cls text|name].
  - unfold response_log, classify. cbn [app].
    log_step.
    destruct (json r) as [v|text]; [|unfold raise; cbn; auto].
    unfold ret at 1.
    destruct v as [| b | z | f | s | l | envelope];
      try (unfold get_, raise; cbn; auto).
    unfold get_, get_default, ret.
    destruct (eq_str (dict_get envelope (lit "status")) (lit "error")).
    + log_step. unfold raise. cbn. auto.
    + destruct (negb (ok r)).
      * log_step. unfold raise. cbn. auto.
      * log_step. cbn. auto.
  - unfold on_requests_error, transport_failure_message,
      transport_failure_log, pbind, raise.
    destruct (isinstance_Timeout cls);
      [|destruct (isinstance_ConnectionError cls)];
      log_step; cbn; auto.
  - cbn. auto.
Qed.

(** [execute], run in any world: the first text that [print] refuses ends the
    call with the exception of [print]; when there is none the call ends as
    [outcome] says. The session is called once, unless the params are
    rejected or [print] raises before. *)
Lemma execute_outcome (self : client) (net : transport)
    (params : option pydict) (w : world) :
  fst (execute self net params w)
  = match _validate_params VALIDATION_RULES params with
    | Raise e => Raise e
    | Ok _ =>
        match log_refusal self (call_log self net params) with
        | Some name => Raise (Uncaught name)
        | None => outcome self net params
        end
    end
  /\ session_calls (snd (execute self net params w))
     = session_calls w ++ calls_made self params.
Proof.
  unfold execute, outcome, call_log, calls_made, request_log, pbind, lift.
  destruct (_validate_params VALIDATION_RULES params) as [[]|e];
    [|simpl; now rewrite app_nil_r].
  cbv zeta.
  change (lit "Making " ++ lit "GET" ++ lit " request to " ++ base_url self)
    with (lit "Making GET request to " ++ base_url self).
  destruct (truthy_params params); cbn [app]; log_step.
  - log_step.
    match goal with
    | |- context [try_except _ _ ?w2] =>
        destruct (try_outcome self net params w2) as [-> ->]
    end.
    cbn [app log_refusal session_calls].
    destruct (log_raises self (lit "Sending GET request with query parameters"));
      auto.
  - unfold ret.
    match goal with
    | |- context [try_except _ _ ?w2] =>
        destruct (try_outcome self net params w2) as [-> ->]
    end.
    cbn [app log_refusal session_calls].
    destruct (log_raises self (lit "Sending GET request with query parameters"));
      auto.
Qed.

End Outcome.

(** ** Calls of [execute] *)

Section Execute.

Context {py : Builtins} {out : Console}.

(** A rejected call prints nothing and does not call the session. *)
Lemma execute_rejected (self : client) (net : transport)
    (params : option pydict) (w : world) (e : exn) :
  _validate_params VALIDATION_RULES params = Raise e ->
  execute self net params w = (Raise e, w).
Proof.
  intros H. unfold execute, pbind, lift. now rewrite H.
Qed.

Lemma validate_zip_value (params : option pydict) (errors : list pystr) :
  zip_errors (dict_get (or_empty params) zip) = errors ->
  errors <> [] ->
  _validate_params VALIDATION_RULES params = Raise (ValidationError errors).
Proof.
  intros <- Hne. rewrite validate_zip. now destruct (zip_errors _).
Qed.

Lemma dict_get_lookup (d : pydict) (key : pystr) (v : pyval) :
  dict_lookup d key = Some v -> dict_get d key = v.
Proof. unfold dict_get. now intros ->. Qed.

(** A call whose texts are all printed ends as [outcome] says. *)
Lemma execute_logged (self : client) (net : transport)
    (params : option pydict) (w : world) :
  can_log self (call_log self net params) ->
  fst (execute self net params w) = outcome self net params.
Proof.
  intros Hlog. apply can_log_refusal in Hlog.
  rewrite (proj1 (execute_outcome self net params w)), Hlog.
  unfold outcome. now destruct (_validate_params VALIDATION_RULES params).
Qed.

(** A call ends as [outcome] says or with an exception of [print]. *)
Lemma execute_outcome_or_print_error (self : client) (net : transport)
    (params : option pydict) (w : world) :
  fst (execute self net params w) = outcome self net params
  \/ exists name,
       debug self = true
       /\ fst (execute self net params w) = Raise (Uncaught name).
Proof.
  rewrite (proj1 (execute_outcome self net params w)). unfold outcome.
  destruct (_validate_params VALIDATION_RULES params) as [[]|e]; [|now left].
  destruct (log_refusal self (call_log self net params)) as [name|] eqn:Hr;
    [|now left].
  right. exists name. split; [|reflexivity].
  destruct (debug self) eqn:Hd; [reflexivity|].
  assert (Hc : can_log self (call_log self net params)) by now left.
  apply can_log_refusal in Hc. congruence.
Qed.

Lemma outcome_is_no_validation_error (self : client) (net : transport)
    (params : option pydict) (errors : list pystr) :
  _validate_params VALIDATION_RULES params = Ok tt ->
  outcome self net params <> Raise (ValidationError errors).
Proof.
  intros Hv. unfold outcome, classify. rewrite Hv.
  destruct (net _) as [r|cls text|name]; try discriminate.
  destruct (json r) as [[| | | | | |envelope]|text]; try discriminate.
  destruct (eq_str _ _); [discriminate|].
  destruct (negb (ok r)); discriminate.
Qed.


(** C1, as the code has it: a [zip] string whose length is neither 0 nor 5
    makes [execute] fail with a [ValidationError] that holds the
    length-violation message (at least 5 characters when shorter, at most 5
    when longer) and nothing else, before anything is sent; the empty string
    is reported as a missing parameter instead; every string of length
    exactly 5, whatever its characters, passes validation, and [execute] then
    raises no [ValidationError]. *)
Theorem C1_zip_length_is_checked
    (self : client) (net : transport) (params : pydict) (s : pystr) (w : world) :
  dict_lookup params zip = Some (PyStr s) ->
  (0 < len s < 5 ->
   execute self net (Some params) w
   = (Raise (ValidationError [msg_min_length zip (lit "5")]), w))
  /\ (5 < len s ->
      execute self net (Some params) w
      = (Raise (ValidationError [msg_max_length zip (lit "5")]), w))
  /\ (len s = 0 ->
      execute self net (Some params) w
      = (Raise (ValidationError [msg_missing zip]), w))
  /\ (len s = 5 ->
      _validate_params VALIDATION_RULES (Some params) = Ok tt
      /\ forall errors,
           fst (execute self net (Some params) w)
           <> Raise (ValidationError errors)).
Proof.
  intros Hzip. apply dict_get_lookup in Hzip.
  assert (Hz : zip_errors (dict_get (or_empty (Some params)) zip)
               = zip_errors (PyStr s)) by (simpl; now rewrite Hzip).
  split; [|split; [|split]].
  - intros [Hlo Hhi]. apply execute_rejected, validate_zip_value; [|discriminate].
    rewrite Hz. simpl.
    destruct (Z.eqb_spec (len s) 0); [lia|].
    destruct (Z.ltb_spec (len s) 5); [reflexivity|lia].
  - intros Hhi. apply execute_rejected, validate_zip_value; [|discriminate].
    rewrite Hz. simpl.
    destruct (Z.eqb_spec (len s) 0); [lia|].
    destruct (Z.ltb_spec (len s) 5); [lia|].
    destruct (len s >? 5) eqn:Hgt; [reflexivity|].
    rewrite Z.gtb_ltb in Hgt. apply Z.ltb_ge in Hgt. lia.
  - intros H0. apply execute_rejected, validate_zip_value; [|discriminate].
    rewrite Hz. simpl. now rewrite H0.
  - intros H5.
    assert (Hvalid : _validate_params VALIDATION_RULES (Some params) = Ok tt).
    { rewrite validate_zip, Hz. simpl. now rewrite H5. }
    split; [exact Hvalid|]. intros errors.
    destruct (execute_outcome_or_print_error self net (Some params) w)
      as [-> | [name [_ ->]]]; [|discriminate].
    now apply outcome_is_no_validation_error.
Qed.

(** C2: when [zip] is absent from the params or bound to the empty string,
    [execute] fails with a [ValidationError] whose list is the single message
    "Required parameter [zip] is missing." (no other check of the parameter
    has run), and the world is as before: nothing was printed and the session
    was not called, so that no request was sent. *)
Theorem C2_missing_zip_is_rejected_before_any_request
    (self : client) (net : transport) (params : option pydict) (w : world) :
  dict_lookup (or_empty params) zip = None
  \/ dict_lookup (or_empty params) zip = Some (PyStr []) ->
  execute self net params w
  = (Raise (ValidationError [lit "Required parameter [zip] is missing."]), w).
Proof.
  intros H. apply execute_rejected, validate_zip_value; [|discriminate].
  unfold dict_get. destruct H as [-> | ->]; reflexivity.
Qed.

(** C10: [execute] called without params, or with [None], does what it does
    with an empty mapping: it raises a [ValidationError] whose list is
    "Required parameter [zip] is missing." and does not call the session, so
    that no request is sent. *)
Theorem C10_no_params_is_the_empty_mapping
    (self : client) (net : transport) (w : world) :
  execute self net None w = execute self net (Some []) w
  /\ execute self net None w
     = (Raise (ValidationError [lit "Required parameter [zip] is missing."]), w)
  /\ session_calls (snd (execute self net None w)) = session_calls w.
Proof.
  assert (H : forall params, or_empty params = [] ->
            execute self net params w
            = (Raise (ValidationError [lit "Required parameter [zip] is missing."]), w)).
  { intros params He. apply execute_rejected, validate_zip_value; [|discriminate].
    now rewrite He. }
  rewrite !H by reflexivity. auto.
Qed.

(** C3, as the code has it: when the body parses to an envelope whose
    [status] is "error", and [debug] is off or [print] takes each text the
    call logs, [execute] fails with a client error that carries the HTTP
    status code and the envelope, whatever the status code is (200
    included): the envelope is looked at before the status code. The message
    is the envelope's [error] field when it has one, and "Unknown API error"
    when it has none. *)
Theorem C3_error_envelope_is_raised_whatever_the_status
    (self : client) (net : transport) (params : option pydict) (w : world)
    (r : response) (envelope : pydict) :
  _validate_params VALIDATION_RULES params = Ok tt ->
  net (get_request self params) = Responds r ->
  json r = JsonValue (PyDict envelope) ->
  dict_get envelope (lit "status") = PyStr (lit "error") ->
  can_log self
    (request_log self params
     ++ [ lit "Response status code: " ++ str_int (status_code r);
          lit "API returned error: "
          ++ str_ (dict_get_default envelope (lit "error")
                     (PyStr (lit "Unknown API error"))) ]) ->
  exists message,
    fst (execute self net params w)
    = Raise (ZipcodesAPIClientError message (Some (status_code r))
               (Some (PyDict envelope)))
    /\ (forall v, dict_lookup envelope (lit "error") = Some v -> message = v)
    /\ (dict_lookup envelope (lit "error") = None ->
        message = PyStr (lit "Unknown API error")).
Proof.
  intros Hvalid Hnet Hjson Hstatus Hlog.
  exists (dict_get_default envelope (lit "error") (PyStr (lit "Unknown API error"))).
  split.
  - rewrite execute_logged.
    + unfold outcome, classify. rewrite Hvalid, Hnet, Hjson, Hstatus.
      reflexivity.
    + unfold call_log, response_log. rewrite Hvalid, Hnet, Hjson, Hstatus.
      exact Hlog.
  - unfold dict_get_default. split; [intros v ->|intros ->]; reflexivity.
Qed.

(** C4, as the code has it: for an envelope whose [status] is not "error",
    when [debug] is off or [print] takes each text the call logs, [execute]
    fails when the HTTP status code is one [requests] counts as a failure,
    from 400 to 599, with a client error that carries the envelope's [error]
    field, or "HTTP <code> error" when it has none, and the status code and
    the envelope; for every other status code it returns the envelope as
    parsed. *)
Theorem C4_http_failure_or_envelope_returned
    (self : client) (net : transport) (params : option pydict) (w : world)
    (r : response) (envelope : pydict) :
  _validate_params VALIDATION_RULES params = Ok tt ->
  net (get_request self params) = Responds r ->
  json r = JsonValue (PyDict envelope) ->
  dict_get envelope (lit "status") <> PyStr (lit "error") ->
  (400 <= status_code r < 600 ->
   can_log self
     (request_log self params
      ++ [ lit "Response status code: " ++ str_int (status_code r);
           lit "HTTP error: "
           ++ str_ (dict_get_default envelope (lit "error")
                      (PyStr (lit "HTTP " ++ str_int (status_code r)
                              ++ lit " error"))) ]) ->
   fst (execute self net params w)
   = Raise (ZipcodesAPIClientError
              (dict_get_default envelope (lit "error")
                 (PyStr (lit "HTTP " ++ str_int (status_code r) ++ lit " error")))
              (Some (status_code r)) (Some (PyDict envelope))))
  /\ (status_code r < 400 \/ 600 <= status_code r ->
      can_log self
        (request_log self params
         ++ [ lit "Response status code: " ++ str_int (status_code r);
              lit "Request successful" ]) ->
      fst (execute self net params w) = Ok (PyDict envelope)).
Proof.
  intros Hvalid Hnet Hjson Hstatus.
  assert (E : eq_str (dict_get envelope (lit "status")) (lit "error") = false).
  { destruct (eq_str _ _) eqn:E; [now apply eq_str_spec in E|reflexivity]. }
  split; intros Hcode Hlog.
  - assert (Hok : negb (ok r) = true).
    { unfold ok. destruct (Z.leb_spec 400 (status_code r)); [|lia].
      destruct (Z.ltb_spec (status_code r) 600); [reflexivity|lia]. }
    rewrite execute_logged.
    + unfold outcome, classify. now rewrite Hvalid, Hnet, Hjson, E, Hok.
    + unfold call_log, response_log. now rewrite Hvalid, Hnet, Hjson, E, Hok.
  - assert (Hok : negb (ok r) = false).
    { unfold ok. destruct (Z.leb_spec 400 (status_code r)); [|reflexivity].
      destruct (Z.ltb_spec (status_code r) 600); [lia|reflexivity]. }
    rewrite execute_logged.
    + unfold outcome, classify. now rewrite Hvalid, Hnet, Hjson, E, Hok.
    + unfold call_log, response_log. now rewrite Hvalid, Hnet, Hjson, E, Hok.
Qed.


End Execute.

(** ** The two flags *)

(** The client [__init__] builds from a key it accepts. *)
Definition client_of (key : pystr) (secure debug : bool) : client :=
  {| api_key := key;
     secure := secure;
     debug := debug;
     base_url := lit "https://api.apiverve.com/v1/zipcodes";
     headers := [ (lit "x-api-key", key);
                  (lit "auth-mode", lit "pypi-package") ] |}.

Section Flags.

Context {py : Builtins} {out : Console}.

Lemma construct_and_execute_client_of (key : pystr) (secure debug : bool)
    (net : transport) (params : option pydict) :
  construct_and_execute key secure debug net params
  = match _validate_api_key key with
    | Ok _ => execute (client_of key secure debug) net params empty_world
    | Raise e => (Raise e, empty_world)
    end.
Proof.
  unfold construct_and_execute, __init__, bind.
  now destruct (_validate_api_key key).
Qed.

Lemma can_log_app_l (self : client) (first rest : list pystr) :
  can_log self (first ++ rest) -> can_log self first.
Proof.
  rewrite !can_log_refusal, log_refusal_app.
  now destruct (log_refusal self first).
Qed.

Lemma calls_made_logged (self : client) (net : transport)
    (params : option pydict) :
  can_log self (call_log self net params) ->
  calls_made self params
  = match _validate_params VALIDATION_RULES params with
    | Ok _ => [get_request self params]
    | Raise _ => []
    end.
Proof.
  unfold call_log, calls_made.
  destruct (_validate_params VALIDATION_RULES params); [|reflexivity].
  intros H. apply can_log_app_l, can_log_refusal in H. now rewrite H.
Qed.

(** C9, as the code has it: the [secure] flag changes nothing at all, neither
    the outcome of building a client and calling [execute], nor what is
    printed, nor the calls of the session. The [debug] flag does not change
    the outcome (the value returned or the error raised, with its message,
    status code and envelope) nor the calls of the session, provided [print]
    takes each text the call logs; when [print] raises for one of them with
    [debug] on, the exception of [print] is the outcome of the call. *)
Theorem C9_flags_do_not_change_the_outcome
    (key : pystr) (secure1 debug1 secure2 debug2 : bool)
    (net : transport) (params : option pydict) :
  construct_and_execute key secure1 debug1 net params
  = construct_and_execute key secure2 debug1 net params
  /\ (Forall (fun message =>
                print_raises (lit "[ZipcodesAPIClient DEBUG] " ++ message)
                = None)
             (call_log (client_of key secure1 debug1) net params) ->
      fst (construct_and_execute key secure1 debug1 net params)
      = fst (construct_and_execute key secure2 debug2 net params)
      /\ session_calls (snd (construct_and_execute key secure1 debug1 net params))
         = session_calls
             (snd (construct_and_execute key secure2 debug2 net params)))
  /\ (forall name,
        _validate_api_key key = Ok tt ->
        _validate_params VALIDATION_RULES params = Ok tt ->
        log_refusal (client_of key secure1 true)
                    (call_log (client_of key secure1 true) net params)
        = Some name ->
        fst (construct_and_execute key secure1 true net params)
        = Raise (Uncaught name)).
Proof.
  rewrite !construct_and_execute_client_of.
  split; [|split].
  - destruct (_validate_api_key key); reflexivity.
  - intros Hprint.
    destruct (_validate_api_key key) as [[]|e]; [|split; reflexivity].
    assert (H1 : can_log (client_of key secure1 debug1)
                   (call_log (client_of key secure1 debug1) net params))
      by now right.
    assert (H2 : can_log (client_of key secure2 debug2)
                   (call_log (client_of key secure2 debug2) net params))
      by now right.
    split.
    + now rewrite !execute_logged.
    + rewrite !(proj2 (execute_outcome _ net params empty_world)).
      now rewrite (calls_made_logged _ net params H1),
        (calls_made_logged _ net params H2).
  - intros name Hkey Hvalid Hrefuse. rewrite Hkey.
    rewrite (proj1 (execute_outcome _ net params empty_world)).
    now rewrite Hvalid, Hrefuse.
Qed.

End Flags.

(** ** The API key check *)

Lemma key_char_not_space (c : N) : key_char c = true -> isspace c = false.
Proof.
  intros Hk. destruct (isspace c) eqn:Hs; [exfalso|reflexivity].
  unfold key_char in Hk. unfold isspace in Hs.
  repeat (rewrite orb_true_iff in Hk || rewrite andb_true_iff in Hk
          || rewrite N.leb_le in Hk || rewrite N.eqb_eq in Hk).
  repeat (rewrite orb_true_iff in Hs || rewrite andb_true_iff in Hs
          || rewrite N.leb_le in Hs || rewrite N.eqb_eq in Hs).
  lia.
Qed.

Lemma lstrip_nil (s : pystr) : lstrip s = [] <-> forallb isspace s = true.
Proof.
  induction s as [|c s IH]; simpl; [easy|].
  destruct (isspace c); simpl; [exact IH|easy].
Qed.

Lemma forallb_rev {A} (f : A -> bool) (l : list A) :
  forallb f (rev l) = forallb f l.
Proof.
  induction l as [|a l IH]; simpl; [reflexivity|].
  rewrite forallb_app, IH. simpl. rewrite andb_true_r. apply andb_comm.
Qed.

Lemma lstrip_all_space (s : pystr) :
  forallb isspace (lstrip s) = true -> lstrip s = [].
Proof.
  induction s as [|c s IH]; simpl; [reflexivity|].
  destruct (isspace c) eqn:Hc; [exact IH|].
  simpl. now rewrite Hc.
Qed.

(** [s.strip()] is empty exactly for a string of whitespace. *)
Lemma strip_nil (s : pystr) : strip s = [] <-> forallb isspace s = true.
Proof.
  unfold strip. rewrite <- lstrip_nil. split.
  - intros H. apply (f_equal (@rev N)) in H. rewrite rev_involutive in H.
    simpl in H. apply lstrip_nil in H. rewrite forallb_rev in H.
    now apply lstrip_all_space.
  - now intros ->.
Qed.

Lemma key_chars_not_blank (s : pystr) :
  key_chars s = true -> s <> [] /\ forallb isspace s = false.
Proof.
  destruct s as [|c s]; [discriminate|]. simpl. intros H.
  apply andb_prop in H as [Hc _]. split; [discriminate|].
  now rewrite (key_char_not_space c Hc).
Qed.

Lemma re_match_key_not_blank (s : pystr) :
  re_match_key s = true -> is_empty s || is_empty (strip s) = false.
Proof.
  unfold re_match_key. intros H.
  assert (Hb : s <> [] /\ forallb isspace s = false).
  { apply orb_prop in H as [H|H]; [now apply key_chars_not_blank|].
    destruct (rev s) as [|c body] eqn:Hr; [discriminate|].
    apply andb_prop in H as [_ H].
    apply key_chars_not_blank in H as [Hne Hsp].
    apply (f_equal (@rev N)) in Hr. rewrite rev_involutive in Hr.
    simpl in Hr. subst s. split.
    - now destruct (rev body).
    - rewrite forallb_app, Hsp. reflexivity. }
  destruct Hb as [Hne Hsp].
  destruct s as [|c s]; [contradiction|]. simpl.
  destruct (strip (c :: s)) eqn:Hst; [|reflexivity].
  apply strip_nil in Hst. congruence.
Qed.

(** The key check accepts exactly the keys that the regular expression
    matches and that keep 32 characters once hyphens and underscores are
    removed. *)
Lemma validate_api_key_accepts (key : pystr) :
  _validate_api_key key = Ok tt
  <-> re_match_key key = true
      /\ 32 <= len (remove_char 95 (remove_char 45 key)).
Proof.
  unfold _validate_api_key. split.
  - destruct (is_empty key || is_empty (strip key)); [discriminate|].
    destruct (re_match_key key); [|discriminate]. simpl.
    destruct (Z.ltb_spec (len (remove_char 95 (remove_char 45 key))) 32);
      [discriminate|]. auto.
  - intros [Hm Hlen]. rewrite (re_match_key_not_blank key Hm), Hm. simpl.
    destruct (Z.ltb_spec (len (remove_char 95 (remove_char 45 key))) 32);
      [lia|reflexivity].
Qed.

(** A key of letters, digits, hyphens and underscores only is matched. *)
Lemma re_match_key_of_key_chars (key : pystr) :
  key <> [] -> forallb key_char key = true -> re_match_key key = true.
Proof.
  intros Hne Hall. unfold re_match_key, key_chars.
  destruct key; [contradiction|]. now rewrite Hall.
Qed.

(** A key whose last character is not a newline is matched only if all its
    characters are letters, digits, hyphens or underscores. *)
Lemma re_match_key_without_newline (key : pystr) :
  last key 0%N <> 10%N ->
  re_match_key key = true -> forallb key_char key = true.
Proof.
  intros Hlast H. unfold re_match_key in H.
  apply orb_prop in H as [H|H].
  - unfold key_chars in H. now destruct key.
  - exfalso. destruct (rev key) as [|c body] eqn:Hr; [discriminate|].
    apply andb_prop in H as [Hc _]. apply N.eqb_eq in Hc.
    apply (f_equal (@rev N)) in Hr. rewrite rev_involutive in Hr.
    simpl in Hr. subst key. rewrite last_last in Hlast. contradiction.
Qed.

(** A key of 32 letters followed by a newline. *)
Definition key_with_newline : pystr :=
  lit "abcdefghijklmnopqrstuvwxyzABCDEF" ++ [10%N].

(** C5, where the code departs from it: the key check accepts a key that ends
    in a newline, a character that is neither a letter, a digit, a hyphen nor
    an underscore, and the construction of the client completes with that
    key in its headers. *)
Theorem C5_key_ending_in_newline_is_accepted :
  In 10%N key_with_newline
  /\ key_char 10 = false
  /\ _validate_api_key key_with_newline = Ok tt
  /\ exists self, __init__ key_with_newline true false = Ok self
                  /\ api_key self = key_with_newline.
Proof.
  split; [apply in_or_app; right; now left|].
  split; [reflexivity|].
  split; [reflexivity|].
  eexists. split; reflexivity.
Qed.

(** Beside that case the key check is as the specification says: it rejects
    a key that is empty, blank, or holds another character than a letter, a
    digit, a hyphen or an underscore before its last position. *)
Lemma key_with_foreign_char_is_rejected (prefix rest : pystr) (c : N) :
  key_char c = false -> rest <> [] ->
  exists e, _validate_api_key (prefix ++ c :: rest) = Raise e.
Proof.
  intros Hc Hrest.
  destruct (_validate_api_key (prefix ++ c :: rest)) as [[]|e] eqn:Hv;
    [exfalso|eauto].
  apply validate_api_key_accepts in Hv as [Hm _].
  unfold re_match_key in Hm. apply orb_prop in Hm as [Hm|Hm].
  - unfold key_chars in Hm. destruct (prefix ++ c :: rest) eqn:Hk;
      [discriminate|]. rewrite <- Hk, forallb_app in Hm. simpl in Hm.
    rewrite Hc in Hm. simpl in Hm. now rewrite andb_false_r in Hm.
  - destruct (exists_last Hrest) as [rest' [z ->]].
    replace (prefix ++ c :: rest' ++ [z])
      with ((prefix ++ c :: rest') ++ [z]) in Hm
      by (rewrite <- app_assoc; reflexivity).
    rewrite rev_app_distr in Hm. simpl in Hm.
    apply andb_prop in Hm as [_ Hm].
    rewrite rev_involutive in Hm. unfold key_chars in Hm.
    destruct (prefix ++ c :: rest') eqn:Hk; [discriminate|].
    rewrite <- Hk, forallb_app in Hm. simpl in Hm.
    rewrite Hc in Hm. simpl in Hm. now rewrite andb_false_r in Hm.
Qed.


(** ** The properties at concrete inputs *)

(** A key of exactly 32 letters, and the client built from it. *)
Definition valid_key : pystr := lit "abcdefghijklmnopqrstuvwxyzABCDEF".

Definition demo_client : client :=
  {| api_key := valid_key;
     secure := true;
     debug := false;
     base_url := lit "https://api.apiverve.com/v1/zipcodes";
     headers := [ (lit "x-api-key", valid_key);
                  (lit "auth-mode", lit "pypi-package") ] |}.

Lemma key_of_32_letters_is_accepted :
  len valid_key = 32 /\ __init__ valid_key true false = Ok demo_client.
Proof. split; reflexivity. Qed.

Lemma short_and_malformed_keys_are_rejected :
  __init__ [] true false = Raise (client_error msg_key_required)
  /\ __init__ (lit "   ") true false = Raise (client_error msg_key_required)
  /\ __init__ (lit "abc!defghijklmnopqrstuvwxyz12345678") true false
     = Raise (client_error msg_key_format)
  /\ __init__ (lit "abcdefghijklmnopqrstuvwxyz-_ABCDE") true false
     = Raise (client_error msg_key_short).
Proof. repeat split; reflexivity. Qed.

(** A session that ends every call in the same way. *)
Definition always (answer : sent) : transport := fun _ => answer.

Definition params_of_zip (value : pyval) : pydict := [(zip, value)].

Definition zip_64082 : option pydict :=
  Some (params_of_zip (PyStr (lit "64082"))).

(** [{"status": "ok", "data": {"zip": "64082", "city": "Lees Summit"}}] *)
Definition found : pydict :=
  [ (lit "status", PyStr (lit "ok"));
    (lit "data", PyDict [ (lit "zip", PyStr (lit "64082"));
                          (lit "city", PyStr (lit "Lees Summit")) ]) ].

(** [{"status": "error", "error": "Zip code not found"}] *)
Definition not_found : pydict :=
  [ (lit "status", PyStr (lit "error"));
    (lit "error", PyStr (lit "Zip code not found")) ].

(** [{"status": "error"}] *)
Definition bare_error : pydict := [ (lit "status", PyStr (lit "error")) ].

(** [{"message": "Forbidden"}] *)
Definition forbidden : pydict := [ (lit "message", PyStr (lit "Forbidden")) ].

Definition answer (code : Z) (envelope : pydict) : sent :=
  Responds {| status_code := code; json := JsonValue (PyDict envelope) |}.

(** A rule table with one enumerated string parameter:
    [{"mode": {"type": "string", "enum": ["a", "b"]}}] *)
Definition mode : pystr := lit "mode".

Definition mode_values : list pyval := [PyStr (lit "a"); PyStr (lit "b")].

Definition mode_rule : rule :=
  {| r_type := Some (lit "string"); r_required := false;
     r_min := None; r_max := None;
     r_minLength := None; r_maxLength := None;
     r_format := None; r_enum := Some mode_values |}.

Definition mode_table : rule_table := [(mode, mode_rule)].

(** A required string of at least 2 characters and an optional one of at
    most 3:
    [{"a": {"type": "string", "required": True, "minLength": 2},
      "b": {"type": "string", "maxLength": 3}}] *)
Definition two_table : rule_table :=
  [ (lit "a", {| r_type := Some (lit "string"); r_required := true;
                 r_min := None; r_max := None;
                 r_minLength := Some 2; r_maxLength := None;
                 r_format := None; r_enum := None |});
    (lit "b", {| r_type := Some (lit "string"); r_required := false;
                 r_min := None; r_max := None;
                 r_minLength := None; r_maxLength := Some 3;
                 r_format := None; r_enum := None |}) ].

(** Both parameters are reported, the first of the table first. *)
Lemma two_violations_are_both_reported :
  forall py : Builtins,
    _validate_params two_table
      (Some [ (lit "b", PyStr (lit "wxyz")); (lit "a", PyStr (lit "x")) ])
    = Raise (ValidationError
               [ lit "Parameter [a] must be at least 2 characters.";
                 lit "Parameter [b] must be at most 3 characters." ]).
Proof. reflexivity. Qed.

(** *** Consoles *)

(** The surrogate code points, which UTF-8 does not encode. *)
Definition is_surrogate (c : N) : bool := ((55296 <=? c) && (c <=? 57343))%N.

(** A standard output encoded in UTF-8 with the strict error handler, the
    default of the interpreter: [print] raises a [UnicodeEncodeError] for a
    text that holds a surrogate. *)
Definition utf8_console : Console :=
  {| print_raises := fun text =>
       if existsb is_surrogate text then Some "UnicodeEncodeError"%string
       else None |}.

(** A standard output that takes every text (an error handler that escapes
    what the encoding lacks) . *)
Definition any_console : Console := {| print_raises := fun _ => None |}.

(** [{"status": "error", "error": "\ud800"}]: the error text is one lone
    surrogate, which [json] accepts. *)
Definition garbled : pydict :=
  [ (lit "status", PyStr (lit "error"));
    (lit "error", PyStr [55296%N]) ].

(** With [debug] set and a console that takes every text, the call prints
    five texts and returns the same envelope. *)
Lemma debug_only_prints :
  forall py : Builtins,
    let quiet :=
      @execute py any_console demo_client (always (answer 200 found))
               zip_64082 empty_world in
    let loud :=
      @execute py any_console (client_of valid_key true true)
               (always (answer 200 found)) zip_64082 empty_world in
    fst quiet = Ok (PyDict found) /\ fst loud = Ok (PyDict found)
    /\ stdout (snd quiet) = [] /\ List.length (stdout (snd loud)) = 5%nat.
Proof. intros py. repeat split. Qed.

Lemma tag_has_no_surrogate (message : pystr) :
  existsb is_surrogate (lit "[ZipcodesAPIClient DEBUG] " ++ message)
  = existsb is_surrogate message.
Proof. now rewrite existsb_app. Qed.

(** On a UTF-8 console and with [debug] on, logging fails exactly when one of
    the messages holds a surrogate. *)
Lemma utf8_log_refusal (self : client) (messages : list pystr) :
  debug self = true ->
  @log_refusal utf8_console self messages
  = if existsb (existsb is_surrogate) messages
    then Some "UnicodeEncodeError"%string else None.
Proof.
  intros Hd. induction messages as [|m rest IH]; [reflexivity|].
  cbn [log_refusal existsb]. unfold log_raises. rewrite Hd.
  cbn [print_raises utf8_console]. rewrite tag_has_no_surrogate.
  destruct (existsb is_surrogate m); [reflexivity|exact IH].
Qed.

(** *** C1 *)

(** The zip "123" is too short, "1234567" too long, and "64082" passes; in
    each case the hypotheses of the theorem hold. *)
Lemma C1_witness :
  (forall (py : Builtins) (out : Console),
     execute demo_client (always (answer 200 found))
       (Some (params_of_zip (PyStr (lit "123")))) empty_world
     = (Raise (ValidationError
                 [lit "Parameter [zip] must be at least 5 characters."]),
        empty_world))
  /\ (forall (py : Builtins) (out : Console),
        execute demo_client (always (answer 200 found))
          (Some (params_of_zip (PyStr (lit "1234567")))) empty_world
        = (Raise (ValidationError
                    [lit "Parameter [zip] must be at most 5 characters."]),
           empty_world))
  /\ (forall py : Builtins,
        _validate_params VALIDATION_RULES zip_64082 = Ok tt).
Proof.
  split; [|split].
  - intros py out.
    apply (C1_zip_length_is_checked demo_client (always (answer 200 found))
             (params_of_zip (PyStr (lit "123"))) (lit "123") empty_world
             eq_refl).
    vm_compute. split; reflexivity.
  - intros py out.
    apply (C1_zip_length_is_checked demo_client (always (answer 200 found))
             (params_of_zip (PyStr (lit "1234567"))) (lit "1234567") empty_world
             eq_refl).
    reflexivity.
  - intros py.
    apply (@C1_zip_length_is_checked py any_console demo_client
             (always (answer 200 found))
             (params_of_zip (PyStr (lit "64082"))) (lit "64082") empty_world
             eq_refl).
    reflexivity.
Defined.

(** The empty string has a length other than 5, and what is raised for it
    holds no length-violation message; a list of five characters has length
    5 and does not pass. *)
Lemma C1_counterexample :
  len [] <> 5
  /\ forall (py : Builtins) (out : Console),
       execute demo_client (always (answer 200 found))
         (Some (params_of_zip (PyStr []))) empty_world
       = (Raise (ValidationError [lit "Required parameter [zip] is missing."]),
          empty_world)
       /\ ~ In (msg_min_length zip (lit "5"))
               [lit "Required parameter [zip] is missing."]
       /\ ~ In (msg_max_length zip (lit "5"))
               [lit "Required parameter [zip] is missing."]
       /\ execute demo_client (always (answer 200 found))
            (Some (params_of_zip
                     (PyList (map (fun c => PyStr [c]) (lit "64082")))))
            empty_world
          = (Raise (ValidationError [lit "Parameter [zip] must be a string."]),
             empty_world).
Proof.
  split; [discriminate|].
  intros py out. split; [reflexivity|].
  split; [|split]; [| |reflexivity];
    intros [H|[]]; vm_compute in H; discriminate H.
Qed.

(** *** C2 *)

(** Params without [zip], and params that bind it to the empty string. *)
Lemma C2_witness :
  (forall (py : Builtins) (out : Console),
     execute demo_client (always (answer 200 found)) (Some []) empty_world
     = (Raise (ValidationError [lit "Required parameter [zip] is missing."]),
        empty_world))
  /\ (forall (py : Builtins) (out : Console),
        execute demo_client (always (answer 200 found))
          (Some (params_of_zip (PyStr []))) empty_world
        = (Raise (ValidationError [lit "Required parameter [zip] is missing."]),
           empty_world)).
Proof.
  split; intros py out.
  - apply (C2_missing_zip_is_rejected_before_any_request demo_client
             (always (answer 200 found)) (Some []) empty_world).
    left. reflexivity.
  - apply (C2_missing_zip_is_rejected_before_any_request demo_client
             (always (answer 200 found))
             (Some (params_of_zip (PyStr []))) empty_world).
    right. reflexivity.
Defined.

(** *** C3 *)

(** The envelope of the specification's example, with HTTP 200: with [debug]
    off on any console, and with [debug] on a console that takes every
    text. *)
Lemma C3_witness :
  dict_get not_found (lit "status") = PyStr (lit "error")
  /\ (forall (py : Builtins) (out : Console),
        fst (execute demo_client (always (answer 200 not_found)) zip_64082
               empty_world)
        = Raise (ZipcodesAPIClientError (PyStr (lit "Zip code not found"))
                   (Some 200) (Some (PyDict not_found))))
  /\ (forall py : Builtins,
        fst (@execute py any_console (client_of valid_key true true)
               (always (answer 200 not_found)) zip_64082 empty_world)
        = Raise (ZipcodesAPIClientError (PyStr (lit "Zip code not found"))
                   (Some 200) (Some (PyDict not_found)))).
Proof.
  split; [reflexivity|]. split.
  - intros py out.
    destruct (C3_error_envelope_is_raised_whatever_the_status demo_client
                (always (answer 200 not_found)) zip_64082 empty_world
                {| status_code := 200; json := JsonValue (PyDict not_found) |}
                not_found eq_refl eq_refl eq_refl eq_refl
                (or_introl eq_refl))
      as [message [Hraise [Hfield _]]].
    rewrite Hraise, (Hfield (PyStr (lit "Zip code not found")) eq_refl).
    reflexivity.
  - intros py.
    assert (Hlog : forall messages,
              @can_log any_console (client_of valid_key true true) messages).
    { intros messages. right. apply Forall_forall. reflexivity. }
    destruct (@C3_error_envelope_is_raised_whatever_the_status py any_console
                (client_of valid_key true true)
                (always (answer 200 not_found)) zip_64082 empty_world
                {| status_code := 200; json := JsonValue (PyDict not_found) |}
                not_found eq_refl eq_refl eq_refl eq_refl (Hlog _))
      as [message [Hraise [Hfield _]]].
    rewrite Hraise, (Hfield (PyStr (lit "Zip code not found")) eq_refl).
    reflexivity.
Defined.

(** An envelope whose status is "error" and that has no [error] field: the
    message is not a field of the envelope. *)
Lemma C3_counterexample :
  dict_get bare_error (lit "status") = PyStr (lit "error")
  /\ dict_lookup bare_error (lit "error") = None
  /\ PyStr (lit "Unknown API error") <> dict_get bare_error (lit "error")
  /\ forall (py : Builtins) (out : Console),
       fst (execute demo_client (always (answer 200 bare_error)) zip_64082
              empty_world)
       = Raise (ZipcodesAPIClientError (PyStr (lit "Unknown API error"))
                  (Some 200) (Some (PyDict bare_error))).
Proof.
  split; [reflexivity|]. split; [reflexivity|]. split; [discriminate|].
  intros py out. reflexivity.
Qed.

(** *** C4 *)

(** HTTP 403 with an envelope that has no [error] field, and the
    specification's successful response with HTTP 200. *)
Lemma C4_witness :
  (forall (py : Builtins) (out : Console),
     fst (execute demo_client (always (answer 403 forbidden)) zip_64082
            empty_world)
     = Raise (ZipcodesAPIClientError (PyStr (lit "HTTP 403 error"))
                (Some 403) (Some (PyDict forbidden))))
  /\ (forall (py : Builtins) (out : Console),
        fst (execute demo_client (always (answer 200 found)) zip_64082
               empty_world)
        = Ok (PyDict found)).
Proof.
  split; intros py out.
  - apply (C4_http_failure_or_envelope_returned demo_client
             (always (answer 403 forbidden)) zip_64082 empty_world
             {| status_code := 403; json := JsonValue (PyDict forbidden) |}
             forbidden eq_refl eq_refl eq_refl).
    + discriminate.
    + simpl. lia.
    + left. reflexivity.
  - apply (C4_http_failure_or_envelope_returned demo_client
             (always (answer 200 found)) zip_64082 empty_world
             {| status_code := 200; json := JsonValue (PyDict found) |}
             found eq_refl eq_refl eq_refl).
    + discriminate.
    + simpl. lia.
    + left. reflexivity.
Defined.

(** HTTP 300 (Multiple Choices, which the library does not follow) is not a
    2xx code, and the envelope is returned. *)
Lemma C4_counterexample :
  ~ (200 <= 300 < 300)
  /\ dict_get found (lit "status") <> PyStr (lit "error")
  /\ forall (py : Builtins) (out : Console),
       fst (execute demo_client (always (answer 300 found)) zip_64082
              empty_world)
       = Ok (PyDict found).
Proof.
  split; [lia|]. split; [discriminate|]. intros py out. reflexivity.
Qed.

(** *** C6 *)

(** The value "c" is a string outside the set: the enum message is raised.
    The value 5 is outside the set too, but it is not a string: the type
    message is appended alone. *)
Lemma C6_witness :
  py_in (PyStr (lit "c")) mode_values = false
  /\ py_in (PyInt 5) mode_values = false
  /\ (forall py : Builtins,
        In (msg_enum mode mode_values)
           [lit "Parameter [mode] must be one of: a, b."]
        /\ _validate_params mode_table (Some [(mode, PyStr (lit "c"))])
           = Raise (ValidationError
                      [lit "Parameter [mode] must be one of: a, b."]))
  /\ (forall py : Builtins,
        exists type_message,
          check_param [(mode, PyInt 5)] (mode, mode_rule) []
          = Ok ([] ++ [type_message])
          /\ type_message <> msg_enum mode mode_values).
Proof.
  split; [reflexivity|]. split; [reflexivity|]. split; intros py.
  - apply (proj2
             (proj1
                (C6_enum_checked_when_type_checks_fall_through mode_table
                   (Some [(mode, PyStr (lit "c"))]) mode mode_rule mode_values
                   (or_introl eq_refl) eq_refl eq_refl eq_refl)
                eq_refl)).
    reflexivity.
  - apply (C6_enum_checked_when_type_checks_fall_through mode_table
             (Some [(mode, PyInt 5)]) mode mode_rule mode_values
             (or_introl eq_refl) eq_refl eq_refl eq_refl).
    reflexivity.
Defined.

(** The value 5 is outside the set but not a string: the type check fails,
    the iteration is left, and no enum message is emitted. *)
Lemma C6_counterexample :
  r_enum mode_rule = Some mode_values
  /\ py_in (PyInt 5) mode_values = false
  /\ forall py : Builtins,
       _validate_params mode_table (Some [(mode, PyInt 5)])
       = Raise (ValidationError [lit "Parameter [mode] must be a string."])
       /\ ~ In (msg_enum mode mode_values)
               [lit "Parameter [mode] must be a string."].
Proof.
  split; [reflexivity|]. split; [reflexivity|].
  intros py. split; [reflexivity|].
  intros [H|[]]. vm_compute in H. discriminate H.
Qed.

(** *** C7 *)


(** *** C9 *)

(** With [debug] on, a UTF-8 console refuses one of the texts logged for the
    response whose error text is a lone surrogate. *)
Lemma utf8_refuses_garbled :
  forall py : Builtins,
    @log_refusal utf8_console (client_of valid_key true true)
      (call_log (client_of valid_key true true)
                (always (answer 200 garbled)) zip_64082)
    = Some "UnicodeEncodeError"%string.
Proof.
  intros py. rewrite utf8_log_refusal by reflexivity.
  assert (H : existsb (existsb is_surrogate)
                (call_log (client_of valid_key true true)
                          (always (answer 200 garbled)) zip_64082) = true).
  { apply existsb_exists.
    exists (lit "API returned error: " ++ [55296%N]). split; [|reflexivity].
    unfold call_log.
    change (_validate_params VALIDATION_RULES zip_64082) with (@Ok unit tt).
    apply in_or_app. right. right. left. reflexivity. }
  now rewrite H.
Qed.

(** On a console that takes every text, the specification's error response
    gives the same error with [debug] on and off; on a UTF-8 console and with
    [debug] on, the response whose error text is a lone surrogate ends the
    call with the exception of [print]. *)
Lemma C9_witness :
  (forall py : Builtins,
     fst (@construct_and_execute py any_console valid_key true true
            (always (answer 200 not_found)) zip_64082)
     = fst (@construct_and_execute py any_console valid_key false false
              (always (answer 200 not_found)) zip_64082))
  /\ (forall py : Builtins,
        fst (@construct_and_execute py any_console valid_key false false
               (always (answer 200 not_found)) zip_64082)
        = Raise (ZipcodesAPIClientError (PyStr (lit "Zip code not found"))
                   (Some 200) (Some (PyDict not_found))))
  /\ (forall py : Builtins,
        fst (@construct_and_execute py utf8_console valid_key true true
               (always (answer 200 garbled)) zip_64082)
        = Raise (Uncaught "UnicodeEncodeError")).
Proof.
  split; [|split; [reflexivity|]]; intros py.
  - apply (@C9_flags_do_not_change_the_outcome py any_console valid_key
             true true false false (always (answer 200 not_found)) zip_64082).
    apply Forall_forall. reflexivity.
  - apply (proj2
             (proj2
                (@C9_flags_do_not_change_the_outcome py utf8_console valid_key
                   true true false false (always (answer 200 garbled))
                   zip_64082))
             "UnicodeEncodeError"%string eq_refl eq_refl).
    apply utf8_refuses_garbled.
Defined.

(** On a UTF-8 console, an error response whose text is a lone surrogate:
    with [debug] off the client error is raised, with [debug] on the
    [UnicodeEncodeError] of [print]. *)
Lemma C9_counterexample :
  (forall py : Builtins,
     fst (@construct_and_execute py utf8_console valid_key true false
            (always (answer 200 garbled)) zip_64082)
     = Raise (ZipcodesAPIClientError (PyStr [55296%N]) (Some 200)
                (Some (PyDict garbled))))
  /\ (forall py : Builtins,
        fst (@construct_and_execute py utf8_console valid_key true true
               (always (answer 200 garbled)) zip_64082)
        = Raise (Uncaught "UnicodeEncodeError")).
Proof.
  split; intros py; [reflexivity|].
  rewrite construct_and_execute_client_of.
  change (_validate_api_key valid_key) with (@Ok unit tt). cbv iota.
  rewrite (proj1 (execute_outcome _ _ _ _)).
  change (_validate_params VALIDATION_RULES zip_64082) with (@Ok unit tt).
  cbv iota. now rewrite utf8_refuses_garbled.
Qed.

(** * Further properties of the client *)

(** ** Construction and the API key *)

(** The keys the regular expression matches, spelled out. *)
Lemma re_match_key_spec (s : pystr) :
  re_match_key s = true
  <-> exists body,
        (s = body \/ s = body ++ [10%N])
        /\ body <> [] /\ forallb key_char body = true.
Proof.
  unfold re_match_key. split.
  - intros H. apply orb_prop in H as [H|H].
    + exists s. unfold key_chars in H.
      destruct s; [discriminate|]. repeat split; auto. discriminate.
    + destruct (rev s) as [|c body] eqn:Hr; [discriminate|].
      apply andb_prop in H as [Hc H]. apply N.eqb_eq in Hc. subst c.
      apply (f_equal (@rev N)) in Hr. rewrite rev_involutive in Hr.
      simpl in Hr. exists (rev body). unfold key_chars in H.
      destruct (rev body); [discriminate|]. repeat split; auto. discriminate.
  - intros [body [[-> | ->] [Hne Hall]]].
    + unfold key_chars. destruct body; [contradiction|]. now rewrite Hall.
    + rewrite rev_app_distr. simpl. rewrite rev_involutive.
      unfold key_chars at 2. destruct body; [contradiction|].
      rewrite Hall. apply orb_true_r.
Qed.

Lemma re_match_key_foreign (prefix rest : pystr) (c : N) :
  key_char c = false -> rest <> [] ->
  re_match_key (prefix ++ c :: rest) = false.
Proof.
  intros Hc Hrest.
  destruct (re_match_key (prefix ++ c :: rest)) eqn:Hm; [exfalso|reflexivity].
  apply re_match_key_spec in Hm as [body [Hshape [_ Hall]]].
  assert (Hin : In c body).
  { destruct Hshape as [<- | Hs].
    - apply in_or_app. right. now left.
    - destruct (exists_last Hrest) as [rest' [z ->]].
      replace (prefix ++ c :: rest' ++ [z])
        with ((prefix ++ c :: rest') ++ [z]) in Hs
        by (rewrite <- app_assoc; reflexivity).
      apply app_inj_tail in Hs as [<- _].
      apply in_or_app. right. now left. }
  rewrite forallb_forall in Hall. rewrite (Hall c Hin) in Hc. discriminate.
Qed.

Lemma forallb_filter {A} (f g : A -> bool) (l : list A) :
  forallb f l = true -> forallb f (filter g l) = true.
Proof.
  induction l as [|a l IH]; simpl; [reflexivity|].
  intros H. apply andb_prop in H as [Ha Hl].
  destruct (g a); simpl; [rewrite Ha|]; auto.
Qed.

Lemma filter_idempotent {A} (g : A -> bool) (l : list A) :
  filter g (filter g l) = filter g l.
Proof.
  induction l as [|a l IH]; simpl; [reflexivity|].
  destruct (g a) eqn:Ha; simpl; [rewrite Ha, IH|]; auto.
Qed.

Lemma filter_comm {A} (f g : A -> bool) (l : list A) :
  filter f (filter g l) = filter g (filter f l).
Proof.
  induction l as [|a l IH]; simpl; [reflexivity|].
  destruct (f a) eqn:Hf, (g a) eqn:Hg; simpl; rewrite ?Hf, ?Hg, ?IH; auto.
Qed.

(** The key with its hyphens and underscores removed, as the length check
    computes it. *)
Definition trimmed (key : pystr) : pystr :=
  remove_char 95 (remove_char 45 key).

Lemma trimmed_idempotent (key : pystr) : trimmed (trimmed key) = trimmed key.
Proof.
  unfold trimmed, remove_char.
  set (f := fun d : N => negb (d =? 95)%N).
  set (g := fun d : N => negb (d =? 45)%N).
  rewrite (filter_comm g f (filter g key)).
  now rewrite !filter_idempotent.
Qed.

(** X1: the construction of a client succeeds exactly for a key that is one or
    more letters, digits, hyphens and underscores, possibly followed by one
    newline, and that keeps at least 32 characters when its hyphens and
    underscores are removed. The first check of the key (empty or blank)
    never decides: it only selects the message. *)
Theorem X1_construction_succeeds_iff (key : pystr) (secure debug : bool) :
  (exists self, __init__ key secure debug = Ok self)
  <-> (exists body,
         (key = body \/ key = body ++ [10%N])
         /\ body <> [] /\ forallb key_char body = true)
      /\ 32 <= len (remove_char 95 (remove_char 45 key)).
Proof.
  rewrite <- re_match_key_spec, <- validate_api_key_accepts.
  unfold __init__, bind. split.
  - intros [self H]. now destruct (_validate_api_key key) as [[]|e].
  - intros ->. eauto.
Qed.

(** X2: a key that holds a character other than a letter, a digit, a hyphen
    or an underscore anywhere before its last position is rejected at
    construction: with the message for a missing key when the key is blank
    (nothing but whitespace), and with the message for a malformed key
    otherwise. *)
Theorem X2_foreign_character_is_rejected
    (prefix rest : pystr) (c : N) (secure debug : bool) :
  key_char c = false ->
  rest <> [] ->
  __init__ (prefix ++ c :: rest) secure debug
  = Raise (client_error
             (if forallb isspace (prefix ++ c :: rest)
              then msg_key_required else msg_key_format)).
Proof.
  intros Hc Hrest. unfold __init__, _validate_api_key, bind.
  assert (Hblank : is_empty (prefix ++ c :: rest)
                   || is_empty (strip (prefix ++ c :: rest))
                   = forallb isspace (prefix ++ c :: rest)).
  { destruct (prefix ++ c :: rest) as [|a key] eqn:Hk;
      [now destruct prefix|].
    cbn [is_empty orb].
    destruct (forallb isspace (a :: key)) eqn:Hs.
    - apply strip_nil in Hs. now rewrite Hs.
    - destruct (strip (a :: key)) eqn:Hst; [|reflexivity].
      apply strip_nil in Hst. congruence. }
  rewrite Hblank.
  destruct (forallb isspace (prefix ++ c :: rest)); [reflexivity|].
  now rewrite (re_match_key_foreign prefix rest c Hc Hrest).
Qed.

(** The key of the specification's example, with its exclamation mark, and a
    key of spaces around a tab. *)
Lemma X2_witness :
  __init__ (lit "abc" ++ 33%N :: lit "defghijklmnopqrstuvwxyz12345678")
           true false
  = Raise (client_error msg_key_format)
  /\ __init__ (lit " " ++ 9%N :: lit " ") true false
     = Raise (client_error msg_key_required).
Proof.
  split.
  - apply (X2_foreign_character_is_rejected (lit "abc")
             (lit "defghijklmnopqrstuvwxyz12345678") 33%N true false).
    + reflexivity.
    + discriminate.
  - apply (X2_foreign_character_is_rejected (lit " ") (lit " ") 9%N
             true false).
    + reflexivity.
    + discriminate.
Defined.

(** X3: for a key of letters, digits, hyphens and underscores only, the key
    check decides on the letters and digits alone: the key is accepted
    exactly when the key without its hyphens and underscores is. *)
Theorem X3_hyphens_and_underscores_do_not_count (key : pystr) :
  forallb key_char key = true ->
  _validate_api_key key = Ok tt
  <-> _validate_api_key (remove_char 95 (remove_char 45 key)) = Ok tt.
Proof.
  intros Hall. fold (trimmed key).
  assert (Hall' : forallb key_char (trimmed key) = true)
    by (unfold trimmed, remove_char; now do 2 apply forallb_filter).
  rewrite !validate_api_key_accepts. fold (trimmed key) (trimmed (trimmed key)).
  rewrite trimmed_idempotent. split; intros [_ Hlen]; split; auto.
  - apply re_match_key_of_key_chars; [|exact Hall'].
    intros E. rewrite E in Hlen. cbv in Hlen. now apply Hlen.
  - apply re_match_key_of_key_chars; [|exact Hall].
    intros E. subst key. cbv in Hlen. now apply Hlen.
Qed.

Lemma X3_witness :
  _validate_api_key (lit "live_abcdefgh-ijklmnop-qrstuvwx-yz012345") = Ok tt
  /\ _validate_api_key (lit "liveabcdefghijklmnopqrstuvwxyz012345") = Ok tt.
Proof.
  split; [|reflexivity].
  apply (X3_hyphens_and_underscores_do_not_count
           (lit "live_abcdefgh-ijklmnop-qrstuvwx-yz012345") eq_refl).
  reflexivity.
Defined.

(** ** What a call hands to the session and returns *)

Section Calls.

Context {py : Builtins} {out : Console}.

(** X4: building a client and calling [execute] calls the session at most
    once, and with [session.get] only: not at all when the key or the params
    are invalid, and exactly once when both are valid and [debug] is off or
    [print] takes the texts logged before the call. The call is
    [session.get] of the fixed URL with a timeout of 30, on the session whose
    headers hold the key under [x-api-key], and its query parameters are the
    caller's params as given, keys unknown to the rule table included. What
    the library sends for the call is not part of the statement. *)
Theorem X4_session_is_called_once_when_valid
    (key : pystr) (secure debug : bool) (net : transport)
    (params : option pydict) :
  let calls :=
    session_calls (snd (construct_and_execute key secure debug net params)) in
  let the_call :=
    {| req_method := lit "GET";
       req_url := lit "https://api.apiverve.com/v1/zipcodes";
       req_headers := [ (lit "x-api-key", key);
                        (lit "auth-mode", lit "pypi-package") ];
       req_params := Some params;
       req_json := None;
       req_timeout := 30 |} in
  (calls = [] \/ calls = [the_call])
  /\ (calls = [the_call] ->
      _validate_api_key key = Ok tt
      /\ _validate_params VALIDATION_RULES params = Ok tt)
  /\ (_validate_api_key key = Ok tt ->
      _validate_params VALIDATION_RULES params = Ok tt ->
      can_log (client_of key secure debug)
              (request_log (client_of key secure debug) params) ->
      calls = [the_call]).
Proof.
  cbv zeta. rewrite construct_and_execute_client_of.
  destruct (_validate_api_key key) as [[]|e].
  - rewrite (proj2 (execute_outcome _ net params empty_world)).
    unfold calls_made.
    destruct (_validate_params VALIDATION_RULES params) as [[]|e'].
    + destruct (log_refusal _ _) eqn:Hr; cbn [app session_calls empty_world].
      * split; [now left|]. split; [intros H; discriminate H|].
        intros _ _ Hlog. apply can_log_refusal in Hlog. congruence.
      * split; [now right|]. split; auto.
    + cbn [app session_calls empty_world].
      split; [now left|].
      split; [intros H; discriminate H|intros _ H; discriminate H].
  - cbn [snd session_calls empty_world].
    split; [now left|]. split; intros H; discriminate H.
Qed.

(** X5: when the body of the response is not JSON, and [debug] is off or
    [print] takes each text the call logs, [execute] fails with a client
    error whose message is "Invalid JSON response from API: " followed by
    the parser's text; the error carries the HTTP status code and no
    envelope, whatever the status code is. *)
Theorem X5_unparsable_body_is_a_client_error
    (self : client) (net : transport) (params : option pydict) (w : world)
    (r : response) (text : pystr) :
  _validate_params VALIDATION_RULES params = Ok tt ->
  net (get_request self params) = Responds r ->
  json r = JsonValueError text ->
  can_log self
    (request_log self params
     ++ [lit "Response status code: " ++ str_int (status_code r)]) ->
  fst (execute self net params w)
  = Raise (ZipcodesAPIClientError
             (PyStr (lit "Invalid JSON response from API: " ++ text))
             (Some (status_code r)) None).
Proof.
  intros Hvalid Hnet Hjson Hlog.
  rewrite execute_logged.
  - unfold outcome, classify. now rewrite Hvalid, Hnet, Hjson.
  - unfold call_log, response_log. now rewrite Hvalid, Hnet, Hjson.
Qed.

(** X6: when the body parses to JSON that is not an object (a list, a string,
    a number, a boolean or null), and [debug] is off or [print] takes each
    text the call logs, [execute] does not raise one of the client's
    errors: the [AttributeError] of [response_data.get] reaches the
    caller. *)
Theorem X6_json_that_is_no_object_raises_attribute_error
    (self : client) (net : transport) (params : option pydict) (w : world)
    (r : response) (v : pyval) :
  _validate_params VALIDATION_RULES params = Ok tt ->
  net (get_request self params) = Responds r ->
  json r = JsonValue v ->
  (forall d, v <> PyDict d) ->
  can_log self
    (request_log self params
     ++ [lit "Response status code: " ++ str_int (status_code r)]) ->
  fst (execute self net params w) = Raise (Uncaught "AttributeError").
Proof.
  intros Hvalid Hnet Hjson Hv Hlog.
  rewrite execute_logged.
  - unfold outcome, classify. rewrite Hvalid, Hnet, Hjson.
    destruct v; try reflexivity. now elim (Hv d).
  - unfold call_log, response_log. rewrite Hvalid, Hnet, Hjson.
    destruct v; try exact Hlog. now elim (Hv d).
Qed.

(** X7: [execute] returns a value only when the params passed validation, the
    transport answered, the body parsed to an object whose [status] is not
    "error", and the status code is outside 400..599; the value returned is
    that object. *)
Theorem X7_a_returned_value_is_the_parsed_envelope
    (self : client) (net : transport) (params : option pydict) (w : world)
    (v : pyval) :
  fst (execute self net params w) = Ok v ->
  _validate_params VALIDATION_RULES params = Ok tt
  /\ exists r envelope,
       net (get_request self params) = Responds r
       /\ json r = JsonValue (PyDict envelope)
       /\ v = PyDict envelope
       /\ dict_get envelope (lit "status") <> PyStr (lit "error")
       /\ ~ (400 <= status_code r < 600).
Proof.
  destruct (execute_outcome_or_print_error self net params w)
    as [-> | [name [_ ->]]]; [|discriminate].
  unfold outcome, classify.
  destruct (_validate_params VALIDATION_RULES params) as [[]|e];
    [|discriminate].
  destruct (net _) as [r|cls text|name]; try discriminate.
  destruct (json r) as [[| | | | | |envelope]|text] eqn:Hjson; try discriminate.
  destruct (eq_str _ _) eqn:Hstatus; [discriminate|].
  destruct (negb (ok r)) eqn:Hok; [discriminate|].
  intros [= <-]. split; [reflexivity|].
  exists r, envelope. repeat split; auto.
  - intros E. apply eq_str_spec in E. congruence.
  - intros Hcode. unfold ok in Hok.
    destruct (Z.leb_spec 400 (status_code r)); [|lia].
    destruct (Z.ltb_spec (status_code r) 600); [discriminate|lia].
Qed.

End Calls.

(** ** Debug output *)

Section DebugLines.

Context {py : Builtins} {out : Console}.
Variable self : client.

(** A text printed by [_log]. It can span several lines, when the message
    holds newlines of its own. *)
Definition tagged (text : pystr) : Prop :=
  exists message, text = lit "[ZipcodesAPIClient DEBUG] " ++ message.

(** A computation that only adds texts of [_log] to what has been printed,
    and adds none when [debug] is off. *)
Definition prints_debug_lines {A} (c : prog A) : Prop :=
  forall w, exists texts,
    stdout (snd (c w)) = stdout w ++ texts
    /\ Forall tagged texts
    /\ (debug self = false -> texts = []).

Lemma prints_nothing {A} (c : prog A) :
  (forall w, stdout (snd (c w)) = stdout w) -> prints_debug_lines c.
Proof.
  intros H w. exists []. rewrite H, app_nil_r. auto.
Qed.

Lemma prints_ret {A} (a : A) : prints_debug_lines (ret a).
Proof. now apply prints_nothing. Qed.

Lemma prints_raise {A} (e : exn) : prints_debug_lines (@raise A e).
Proof. now apply prints_nothing. Qed.

Lemma prints_lift {A} (r : result A) : prints_debug_lines (lift r).
Proof. now apply prints_nothing. Qed.

Lemma prints_send (net : transport) (req : request) :
  prints_debug_lines (send net req).
Proof.
  apply prints_nothing. intros w. unfold send. now destruct (net req).
Qed.

Lemma prints_log (message : pystr) : prints_debug_lines (_log self message).
Proof.
  intros w. unfold _log, print. destruct (debug self).
  - destruct (print_raises _).
    + exists []. simpl. rewrite app_nil_r. repeat split; auto.
    + exists [lit "[ZipcodesAPIClient DEBUG] " ++ message]. simpl.
      repeat split; [|discriminate].
      constructor; [now exists message|constructor].
  - exists []. simpl. now rewrite app_nil_r.
Qed.

Lemma prints_bind {A B} (c : prog A) (k : A -> prog B) :
  prints_debug_lines c -> (forall a, prints_debug_lines (k a)) ->
  prints_debug_lines (pbind c k).
Proof.
  intros Hc Hk w. unfold pbind.
  destruct (Hc w) as [lines1 [E1 [T1 Q1]]].
  destruct (c w) as [[a|e] w1]; simpl in E1.
  - destruct (Hk a w1) as [lines2 [E2 [T2 Q2]]].
    exists (lines1 ++ lines2). rewrite E2, E1, app_assoc.
    repeat split; [now apply Forall_app|].
    intros Hq. now rewrite Q1, Q2.
  - exists lines1. auto.
Qed.

Lemma prints_try {A} (body : prog A) (handler : exn -> option (prog A)) :
  prints_debug_lines body ->
  (forall e h, handler e = Some h -> prints_debug_lines h) ->
  prints_debug_lines (try_except body handler).
Proof.
  intros Hb Hh w. unfold try_except.
  destruct (Hb w) as [lines1 [E1 [T1 Q1]]].
  destruct (body w) as [[a|e] w1]; simpl in E1.
  - exists lines1. auto.
  - destruct (handler e) as [h|] eqn:He; [|exists lines1; auto].
    destruct (Hh e h He w1) as [lines2 [E2 [T2 Q2]]].
    exists (lines1 ++ lines2). rewrite E2, E1, app_assoc.
    repeat split; [now apply Forall_app|].
    intros Hq. now rewrite Q1, Q2.
Qed.

(** Take a computation of the client apart along its binds and branches. *)
Ltac prints :=
  repeat first
    [ apply prints_log | apply prints_ret | apply prints_raise
    | apply prints_lift | apply prints_send
    | apply prints_bind; [|intros ?]
    | match goal with
      | |- prints_debug_lines (if ?b then _ else _) => destruct b
      | |- prints_debug_lines (match ?x with _ => _ end) => destruct x
      end ].

Lemma prints_on_requests_error (e : exn) (h : prog pyval) :
  on_requests_error self e = Some h -> prints_debug_lines h.
Proof.
  unfold on_requests_error. destruct e; try discriminate.
  destruct (isinstance_Timeout cls);
    [|destruct (isinstance_ConnectionError cls)];
    intros [= <-]; prints.
Qed.

Lemma prints_request_and_classify (net : transport) (method : pystr)
    (params : option pydict) :
  prints_debug_lines (request_and_classify self net method params).
Proof.
  unfold request_and_classify, session_get, session_post, get_, get_default.
  prints.
Qed.

Lemma prints_execute (net : transport) (params : option pydict) :
  prints_debug_lines (execute self net params).
Proof.
  unfold execute. prints.
  all: apply prints_try;
    [apply prints_request_and_classify|apply prints_on_requests_error].
Qed.

(** X9: a call of [execute] keeps what was printed before it, and every
    text it hands to [print] starts with "[ZipcodesAPIClient DEBUG] " (a text
    can span several lines when the message holds newlines of its own); it
    prints nothing when [debug] is off, and nothing, even with [debug] on,
    when the params are rejected. *)
Theorem X9_execute_prints_only_debug_texts
    (net : transport) (params : option pydict) (w : world) :
  exists texts,
    stdout (snd (execute self net params w)) = stdout w ++ texts
    /\ Forall (fun text =>
                 exists message,
                   text = lit "[ZipcodesAPIClient DEBUG] " ++ message) texts
    /\ (debug self = false -> texts = [])
    /\ (forall e, _validate_params VALIDATION_RULES params = Raise e ->
                  texts = []).
Proof.
  destruct (prints_execute net params w) as [texts [E [T Q]]].
  exists texts. repeat split; auto.
  intros e He. rewrite (execute_rejected self net params w e He) in E.
  simpl in E. rewrite <- (app_nil_r (stdout w)) in E at 1.
  now apply app_inv_head in E.
Qed.

End DebugLines.


(** ** More on the validator *)

Section ValidatorFacts.

Context {py : Builtins}.

Lemma check_param_agree (p1 p2 : pydict) (name : pystr) (r : rule)
    (errors : list pystr) :
  dict_get p1 name = dict_get p2 name ->
  check_param p1 (name, r) errors = check_param p2 (name, r) errors.
Proof. intros H. unfold check_param. now rewrite H. Qed.

Lemma for_each_rule_agree (p1 p2 : pydict) (rules : rule_table) :
  (forall name r, In (name, r) rules -> dict_get p1 name = dict_get p2 name) ->
  forall errors, for_each_rule p1 rules errors = for_each_rule p2 rules errors.
Proof.
  induction rules as [|[name r] rest IH]; intros H errors; [reflexivity|].
  cbn [for_each_rule].
  rewrite (check_param_agree p1 p2 name r errors)
    by (apply (H name r); now left).
  destruct (check_param p2 (name, r) errors) as [errors'|e]; [|reflexivity].
  cbn [bind]. apply IH. intros n r' Hin. apply (H n r'). now right.
Qed.

(** X10: the validator looks at nothing but the values bound to the names of
    the rule table: two params that agree on those names are both accepted,
    or both rejected with the same messages, whatever other keys they
    hold. *)
Theorem X10_keys_outside_the_table_are_ignored
    (rules : rule_table) (params1 params2 : option pydict) :
  (forall name r, In (name, r) rules ->
     dict_get (or_empty params1) name = dict_get (or_empty params2) name) ->
  _validate_params rules params1 = _validate_params rules params2.
Proof.
  intros H. unfold _validate_params.
  destruct rules as [|entry rest]; [reflexivity|].
  now rewrite (for_each_rule_agree _ _ (entry :: rest) H).
Qed.

Lemma violations_of_no_params (rules : rule_table) :
  violations [] rules
  = Ok (map (fun entry => msg_missing (fst entry))
            (filter (fun entry => r_required (snd entry)) rules)).
Proof.
  induction rules as [|[name r] rest IH]; [reflexivity|].
  simpl. rewrite IH. unfold own_errors, check_param. simpl.
  destruct (r_required r); reflexivity.
Qed.

(** X11: called without params, or with an empty mapping, the validator
    reports exactly the required parameters of the table as missing, in the
    order of the table, and accepts when the table requires none. *)
Theorem X11_no_params_reports_the_required_parameters (rules : rule_table) :
  _validate_params rules None
  = match map (fun entry => msg_missing (fst entry))
              (filter (fun entry => r_required (snd entry)) rules) with
    | [] => Ok tt
    | errors => Raise (ValidationError errors)
    end
  /\ _validate_params rules (Some []) = _validate_params rules None.
Proof.
  split; [|reflexivity].
  rewrite validate_params_violations. simpl.
  rewrite violations_of_no_params. now destruct (map _ _).
Qed.

Lemma int_equals_bool (z : Z) (b : bool) :
  py_eq (PyInt z) (PyBool b) = (z =? Z.b2z b).
Proof.
  simpl. rewrite Z.mul_1_r. 
  destruct (Z.compare_spec z (Z.b2z b * 1)) as [E|L|G];
    rewrite Z.mul_1_r in *; destruct (Z.eqb_spec z (Z.b2z b));
    try reflexivity; lia.
Qed.

(** X12: the check of a boolean parameter compares the value with the four
    values 'true', 'false', True and False by equality, so beside the
    booleans it accepts the integers 0 and 1 and the two lower-case strings;
    every other integer and every other non-empty string is reported. *)
Theorem X12_boolean_check_accepts_zero_and_one
    (name : pystr) (r : rule) (params : pydict) :
  r_type r = Some (lit "boolean") ->
  r_enum r = None ->
  (forall b, dict_get params name = PyBool b ->
     _validate_params [(name, r)] (Some params) = Ok tt)
  /\ (forall z, dict_get params name = PyInt z ->
        _validate_params [(name, r)] (Some params)
        = if (z =? 0) || (z =? 1) then Ok tt
          else Raise (ValidationError [msg_boolean name]))
  /\ (forall s, dict_get params name = PyStr s -> s <> [] ->
        _validate_params [(name, r)] (Some params)
        = if pystr_eqb s (lit "true") || pystr_eqb s (lit "false") then Ok tt
          else Raise (ValidationError [msg_boolean name])).
Proof.
  intros Hty Henum.
  assert (Hshape : forall v,
            dict_get params name = v -> is_none v = false ->
            eq_str v [] = false ->
            _validate_params [(name, r)] (Some params)
            = match append_if
                      (negb (isinstance_bool v) &&
                       negb (py_in v [PyStr (lit "true"); PyStr (lit "false");
                                      PyBool true; PyBool false]))
                      (msg_boolean name) [] with
              | [] => Ok tt
              | errors => Raise (ValidationError errors)
              end).
  { intros v Hv Hnone Hempty.
    unfold _validate_params, for_each_rule, check_param, bind. simpl or_empty.
    rewrite Hv, Hnone, Hempty, andb_false_r.
    unfold check_type, check_enum. rewrite Hty, Henum.
    change (pystr_eqb (lit "boolean") (lit "integer")) with false.
    change (pystr_eqb (lit "boolean") (lit "number")) with false.
    change (pystr_eqb (lit "boolean") (lit "string")) with false.
    change (pystr_eqb (lit "boolean") (lit "boolean")) with true.
    cbn [orb]. now destruct (append_if _ _ _). }
  split; [|split].
  - intros b Hv. now rewrite (Hshape (PyBool b) Hv eq_refl eq_refl).
  - intros z Hv. rewrite (Hshape (PyInt z) Hv eq_refl eq_refl).
    unfold py_in, existsb.
    rewrite (int_equals_bool z true), (int_equals_bool z false).
    change (py_eq (PyInt z) (PyStr (lit "true"))) with false.
    change (py_eq (PyInt z) (PyStr (lit "false"))) with false.
    cbn [isinstance_bool negb andb orb Z.b2z].
    rewrite orb_false_r, (orb_comm (z =? 1)).
    now destruct ((z =? 0) || (z =? 1)).
  - intros s Hv Hne.
    assert (Hempty : eq_str (PyStr s) [] = false).
    { destruct (eq_str (PyStr s) []) eqn:E; [|reflexivity].
      apply eq_str_spec in E. now injection E. }
    rewrite (Hshape (PyStr s) Hv eq_refl Hempty).
    unfold py_in, existsb. cbn [isinstance_bool negb andb].
    change (py_eq (PyStr s) (PyStr (lit "true")))
      with (pystr_eqb s (lit "true")).
    change (py_eq (PyStr s) (PyStr (lit "false")))
      with (pystr_eqb s (lit "false")).
    change (py_eq (PyStr s) (PyBool true)) with false.
    change (py_eq (PyStr s) (PyBool false)) with false.
    rewrite !orb_false_r.
    now destruct (pystr_eqb s (lit "true") || pystr_eqb s (lit "false")).
Qed.

End ValidatorFacts.

Section ValidatorMessages.

Context {py : Builtins}.

Lemma int_lt_int (a b : Z) : num_lt (NumInt a) (NumInt b) = (a <? b).
Proof.
  unfold num_lt, num_ext, ext_compare. simpl. now rewrite !Z.mul_1_r.
Qed.

Lemma int_gt_int (a b : Z) : num_gt (NumInt a) (NumInt b) = (a >? b).
Proof.
  unfold num_gt, num_ext, ext_compare. simpl. now rewrite !Z.mul_1_r.
Qed.

(** X13: for an integer parameter with a minimum and a maximum, the bounds
    are inclusive. When [int(value)] succeeds, "must be at least" is reported
    exactly for a number below the minimum and "must be at most" exactly for
    one above the maximum (both, in that order, when the minimum exceeds the
    maximum); when it fails with a [ValueError] or [TypeError] the single
    message "must be a valid integer" is reported and the bounds are not
    looked at; any other exception of [int] leaves the validator. *)
Theorem X13_integer_bounds_are_inclusive
    (name : pystr) (r : rule) (params : pydict) (lo hi : Z)
    (errors : list pystr) :
  r_type r = Some (lit "integer") ->
  r_min r = Some (NumInt lo) ->
  r_max r = Some (NumInt hi) ->
  r_enum r = None ->
  supplied r (dict_get params name) = true ->
  check_param params (name, r) errors
  = match int_ (dict_get params name) with
    | Coerced z =>
        Ok (errors
            ++ (if z <? lo
                then [lit "Parameter [" ++ name ++ lit "] must be at least "
                      ++ str_int lo ++ lit "."]
                else [])
            ++ (if z >? hi
                then [lit "Parameter [" ++ name ++ lit "] must be at most "
                      ++ str_int hi ++ lit "."]
                else []))
    | ValueOrTypeError =>
        Ok (errors ++ [lit "Parameter [" ++ name
                       ++ lit "] must be a valid integer."])
    | OtherError n => Raise (Uncaught n)
    end.
Proof.
  intros Hty Hmin Hmax Henum Hsup.
  unfold supplied in Hsup. apply andb_prop in Hsup as [Hnone Hreq].
  apply negb_true_iff in Hnone, Hreq.
  unfold check_param. rewrite Hnone in *. rewrite orb_false_l in *.
  rewrite Hreq.
  unfold check_type, check_numeric, check_enum. rewrite Hty, Hmin, Hmax, Henum.
  change (pystr_eqb (lit "integer") (lit "integer")) with true.
  change (pystr_eqb (lit "integer") (lit "number")) with false.
  cbn [orb].
  destruct (int_ (dict_get params name)) as [z| |n]; try reflexivity.
  cbn [bind str_number]. rewrite int_lt_int, int_gt_int.
  unfold append_if, msg_at_least, msg_at_most.
  destruct (z <? lo), (z >? hi); rewrite <- ?app_assoc, ?app_nil_r;
    reflexivity.
Qed.

(** A message speaks of the parameter [name]. *)
Definition names_parameter (name message : pystr) : Prop :=
  exists rest,
    message = lit "Parameter [" ++ name ++ lit "] " ++ rest
    \/ message = lit "Required parameter [" ++ name ++ lit "] " ++ rest.

Lemma names_parameter_parameter (name rest : pystr) :
  names_parameter name (lit "Parameter [" ++ name ++ lit "] " ++ rest).
Proof. exists rest. now left. Qed.

Lemma Forall_append_if (name : pystr) (b : bool) (m : pystr)
    (errors : list pystr) :
  names_parameter name m ->
  Forall (names_parameter name) errors ->
  Forall (names_parameter name) (append_if b m errors).
Proof.
  intros Hm He. destruct b; simpl; [|exact He].
  apply Forall_app. split; [exact He|]. now constructor.
Qed.

Create HintDb messages.

#[local] Hint Resolve Forall_append_if Forall_nil : messages.
#[local] Hint Extern 1 (names_parameter _ (msg_at_least _ _)) =>
  apply names_parameter_parameter : messages.
#[local] Hint Extern 1 (names_parameter _ (msg_at_most _ _)) =>
  apply names_parameter_parameter : messages.
#[local] Hint Extern 1 (names_parameter _ (msg_valid _ _)) =>
  apply names_parameter_parameter : messages.
#[local] Hint Extern 1 (names_parameter _ (msg_string _)) =>
  apply names_parameter_parameter : messages.
#[local] Hint Extern 1 (names_parameter _ (msg_min_length _ _)) =>
  apply names_parameter_parameter : messages.
#[local] Hint Extern 1 (names_parameter _ (msg_max_length _ _)) =>
  apply names_parameter_parameter : messages.
#[local] Hint Extern 1 (names_parameter _ (msg_boolean _)) =>
  apply names_parameter_parameter : messages.
#[local] Hint Extern 1 (names_parameter _ (msg_array _)) =>
  apply names_parameter_parameter : messages.
#[local] Hint Extern 1 (names_parameter _ (msg_enum _ _)) =>
  apply names_parameter_parameter : messages.

Lemma own_errors_name_the_parameter (params : pydict) (name : pystr)
    (r : rule) (own : list pystr) :
  own_errors params (name, r) = Ok own ->
  Forall (names_parameter name) own.
Proof.
  unfold own_errors, check_param.
  destruct (r_required r && _).
  { intros [= <-]. constructor; [|constructor].
    exists (lit "is missing."). now right. }
  destruct (is_none _); [intros [= <-]; constructor|].
  assert (Htype : forall fl errs,
            check_type name r (dict_get params name) [] = Ok (fl, errs) ->
            Forall (names_parameter name) errs).
  { unfold check_type, check_numeric, check_string. intros fl errs.
    destruct (_ || _).
    - destruct (if pystr_eqb _ (lit "number") then _ else _) as [num| |n];
        [| |intros H; discriminate H].
      + destruct (r_min r), (r_max r); intros [= _ <-];
          auto 6 with messages.
      + intros [= _ <-]. constructor; auto with messages.
    - destruct (pystr_eqb _ (lit "string")).
      + destruct (dict_get params name);
          try (intros [= _ <-]; constructor; auto with messages).
        destruct (r_minLength r), (r_maxLength r), (r_format r) as [fm|];
          try destruct (pattern_of FORMAT_PATTERNS fm);
          intros [= _ <-]; auto 8 with messages.
      + destruct (pystr_eqb _ (lit "boolean"));
          [intros [= _ <-]; auto with messages|].
        destruct (pystr_eqb _ (lit "array"));
          intros [= _ <-]; auto with messages. }
  destruct (check_type name r (dict_get params name) []) as [[fl errs]|e] eqn:Hc;
    [|discriminate].
  specialize (Htype fl errs eq_refl). simpl.
  destruct fl; intros [= <-]; [|exact Htype].
  unfold check_enum. destruct (r_enum r); auto with messages.
Qed.

Lemma violations_name_a_parameter (params : pydict) (rules : rule_table)
    (errors : list pystr) :
  violations params rules = Ok errors ->
  Forall (fun m => exists name r,
            In (name, r) rules /\ names_parameter name m) errors.
Proof.
  revert errors. induction rules as [|[name r] rest IH]; intros errors.
  - intros [= <-]. constructor.
  - cbn [violations].
    destruct (own_errors params (name, r)) as [own|] eqn:Hown;
      [|intros H; discriminate H].
    destruct (violations params rest) as [more|]; [|intros H; discriminate H].
    cbn [bind]. intros [= <-]. apply Forall_app. split.
    + apply own_errors_name_the_parameter in Hown.
      eapply Forall_impl; [|exact Hown].
      intros m Hm. exists name, r. split; [now left|exact Hm].
    + eapply Forall_impl; [|apply IH; reflexivity].
      intros m [n [r' [Hin Hm]]]. exists n, r'. split; [now right|exact Hm].
Qed.

(** An iteration that does not end by appending ends with an exception the
    validator did not catch. *)
Lemma check_param_raises_uncaught (params : pydict) (entry : pystr * rule)
    (errors : list pystr) (e : exn) :
  check_param params entry errors = Raise e -> exists n, e = Uncaught n.
Proof.
  destruct entry as [name r]. unfold check_param.
  destruct (r_required r && _); [intros H; discriminate H|].
  destruct (is_none _); [intros H; discriminate H|].
  destruct (check_type name r (dict_get params name) errors)
    as [[fl errs]|e'] eqn:Hc; cbn [bind].
  - destruct fl; intros H; discriminate H.
  - intros [= <-]. revert Hc. unfold check_type, check_numeric.
    destruct (_ || _).
    + destruct (if pystr_eqb _ (lit "number") then _ else _) as [num| |n];
        intros H; try discriminate H. injection H as <-. eauto.
    + repeat match goal with
             | |- context [if ?b then _ else _] => destruct b
             end; intros H; discriminate H.
Qed.

Lemma violations_raise_uncaught (params : pydict) (rules : rule_table)
    (e : exn) :
  violations params rules = Raise e -> exists n, e = Uncaught n.
Proof.
  induction rules as [|entry rest IH]; [intros H; discriminate H|].
  cbn [violations]. destruct (own_errors params entry) as [own|e'] eqn:Hown.
  - destruct (violations params rest) as [more|e''];
      [intros H; discriminate H|].
    cbn [bind]. intros [= ->]. now apply IH.
  - cbn [bind]. intros [= ->]. now apply check_param_raises_uncaught in Hown.
Qed.

(** X14: every message of a [ValidationError] raised by the validator speaks
    of a parameter of the rule table: it starts with "Parameter [name] " or
    "Required parameter [name] " for a name of the table, and the list is
    never empty. *)
Theorem X14_messages_name_a_parameter_of_the_table
    (rules : rule_table) (params : option pydict) (errors : list pystr) :
  _validate_params rules params = Raise (ValidationError errors) ->
  errors <> []
  /\ Forall (fun message =>
               exists name r rest,
                 In (name, r) rules
                 /\ (message = lit "Parameter [" ++ name ++ lit "] " ++ rest
                     \/ message = lit "Required parameter [" ++ name
                                  ++ lit "] " ++ rest))
            errors.
Proof.
  rewrite validate_params_violations.
  destruct (violations (or_empty params) rules) as [[|m errs]|e] eqn:Hv;
    try discriminate.
  - intros [= <-]. split; [discriminate|].
    apply violations_name_a_parameter in Hv.
    eapply Forall_impl; [|exact Hv].
    intros msg [name [r [Hin [rest Hm]]]]. now exists name, r, rest.
  - intros [= ->]. apply violations_raise_uncaught in Hv as [n Hn].
    discriminate Hn.
Qed.

End ValidatorMessages.

(** ** The further properties at concrete inputs *)

(** A gateway's HTML error page, which is not JSON. *)
Definition bad_gateway : response :=
  {| status_code := 502;
     json := JsonValueError (lit "Expecting value: line 1 column 1 (char 0)") |}.

(** A body that is the JSON list [[]]. *)
Definition empty_list_body : response :=
  {| status_code := 200; json := JsonValue (PyList []) |}.

Lemma X5_witness :
  json bad_gateway
  = JsonValueError (lit "Expecting value: line 1 column 1 (char 0)")
  /\ forall (py : Builtins) (out : Console),
       fst (execute demo_client (always (Responds bad_gateway)) zip_64082
              empty_world)
       = Raise (ZipcodesAPIClientError
                  (PyStr (lit "Invalid JSON response from API: Expecting value: line 1 column 1 (char 0)"))
                  (Some 502) None).
Proof.
  split; [reflexivity|]. intros py out.
  apply (X5_unparsable_body_is_a_client_error demo_client
           (always (Responds bad_gateway)) zip_64082 empty_world bad_gateway
           (lit "Expecting value: line 1 column 1 (char 0)")
           eq_refl eq_refl eq_refl (or_introl eq_refl)).
Defined.

Lemma X6_witness :
  json empty_list_body = JsonValue (PyList [])
  /\ forall (py : Builtins) (out : Console),
       fst (execute demo_client (always (Responds empty_list_body)) zip_64082
              empty_world)
       = Raise (Uncaught "AttributeError").
Proof.
  split; [reflexivity|]. intros py out.
  apply (X6_json_that_is_no_object_raises_attribute_error demo_client
           (always (Responds empty_list_body)) zip_64082 empty_world
           empty_list_body (PyList []) eq_refl eq_refl eq_refl).
  - discriminate.
  - left. reflexivity.
Defined.

Lemma X7_witness :
  (forall (py : Builtins) (out : Console),
     fst (execute demo_client (always (answer 200 found)) zip_64082 empty_world)
     = Ok (PyDict found))
  /\ forall (py : Builtins) (out : Console),
       _validate_params VALIDATION_RULES zip_64082 = Ok tt
       /\ exists r envelope,
            always (answer 200 found) (get_request demo_client zip_64082)
            = Responds r
            /\ json r = JsonValue (PyDict envelope)
            /\ PyDict found = PyDict envelope
            /\ dict_get envelope (lit "status") <> PyStr (lit "error")
            /\ ~ (400 <= status_code r < 600).
Proof.
  split; [reflexivity|]. intros py out.
  apply (X7_a_returned_value_is_the_parsed_envelope demo_client
           (always (answer 200 found)) zip_64082 empty_world (PyDict found)
           eq_refl).
Defined.

(** Params with keys the rule table does not know. *)
Definition zip_and_more : pydict :=
  [ (lit "units", PyStr (lit "km"));
    (lit "zip", PyStr (lit "64082"));
    (lit "page", PyInt 2) ].

Lemma X10_witness :
  (forall name r, In (name, r) VALIDATION_RULES ->
     dict_get (params_of_zip (PyStr (lit "64082"))) name
     = dict_get zip_and_more name)
  /\ forall py : Builtins,
       _validate_params VALIDATION_RULES zip_64082
       = _validate_params VALIDATION_RULES (Some zip_and_more).
Proof.
  assert (H : forall name r, In (name, r) VALIDATION_RULES ->
                dict_get (params_of_zip (PyStr (lit "64082"))) name
                = dict_get zip_and_more name).
  { intros name r [[= <- _]|[]]. reflexivity. }
  split; [exact H|]. intros py.
  apply (X10_keys_outside_the_table_are_ignored VALIDATION_RULES zip_64082
           (Some zip_and_more) H).
Defined.

(** [{"verbose": {"type": "boolean"}}] *)
Definition verbose : pystr := lit "verbose".

Definition verbose_rule : rule :=
  {| r_type := Some (lit "boolean"); r_required := false;
     r_min := None; r_max := None;
     r_minLength := None; r_maxLength := None;
     r_format := None; r_enum := None |}.

Lemma X12_witness :
  (forall py : Builtins,
     _validate_params [(verbose, verbose_rule)] (Some [(verbose, PyInt 1)])
     = Ok tt)
  /\ (forall py : Builtins,
        _validate_params [(verbose, verbose_rule)] (Some [(verbose, PyInt 2)])
        = Raise (ValidationError
                   [lit "Parameter [verbose] must be a boolean."]))
  /\ (forall py : Builtins,
        _validate_params [(verbose, verbose_rule)]
          (Some [(verbose, PyStr (lit "True"))])
        = Raise (ValidationError
                   [lit "Parameter [verbose] must be a boolean."])).
Proof.
  split; [|split]; intros py.
  - exact (proj1 (proj2 (X12_boolean_check_accepts_zero_and_one verbose
                           verbose_rule [(verbose, PyInt 1)] eq_refl eq_refl))
             1 eq_refl).
  - exact (proj1 (proj2 (X12_boolean_check_accepts_zero_and_one verbose
                           verbose_rule [(verbose, PyInt 2)] eq_refl eq_refl))
             2 eq_refl).
  - refine (proj2 (proj2 (X12_boolean_check_accepts_zero_and_one verbose
                            verbose_rule [(verbose, PyStr (lit "True"))]
                            eq_refl eq_refl))
              (lit "True") eq_refl _).
    discriminate.
Defined.

(** [{"page": {"type": "integer", "min": 1, "max": 100}}] *)
Definition page : pystr := lit "page".

Definition page_rule : rule :=
  {| r_type := Some (lit "integer"); r_required := false;
     r_min := Some (NumInt 1); r_max := Some (NumInt 100);
     r_minLength := None; r_maxLength := None;
     r_format := None; r_enum := None |}.

Lemma X13_witness :
  supplied page_rule (PyStr (lit "0")) = true
  /\ forall py : Builtins,
       check_param [(page, PyStr (lit "0"))] (page, page_rule) []
       = match int_ (PyStr (lit "0")) with
         | Coerced z =>
             Ok ((if z <? 1
                  then [lit "Parameter [page] must be at least 1."]
                  else [])
                 ++ (if z >? 100
                     then [lit "Parameter [page] must be at most 100."]
                     else []))
         | ValueOrTypeError =>
             Ok [lit "Parameter [page] must be a valid integer."]
         | OtherError n => Raise (Uncaught n)
         end.
Proof.
  split; [reflexivity|]. intros py.
  apply (X13_integer_bounds_are_inclusive page page_rule
           [(page, PyStr (lit "0"))] 1 100 []
           eq_refl eq_refl eq_refl eq_refl eq_refl).
Defined.

Lemma X14_witness :
  (forall py : Builtins,
     _validate_params two_table
       (Some [ (lit "b", PyStr (lit "wxyz")); (lit "a", PyStr (lit "x")) ])
     = Raise (ValidationError
                [ lit "Parameter [a] must be at least 2 characters.";
                  lit "Parameter [b] must be at most 3 characters." ]))
  /\ forall py : Builtins,
       [ lit "Parameter [a] must be at least 2 characters.";
         lit "Parameter [b] must be at most 3 characters." ] <> []
       /\ Forall (fun message =>
                    exists name r rest,
                      In (name, r) two_table
                      /\ (message = lit "Parameter [" ++ name ++ lit "] " ++ rest
                          \/ message = lit "Required parameter [" ++ name
                                       ++ lit "] " ++ rest))
                 [ lit "Parameter [a] must be at least 2 characters.";
                   lit "Parameter [b] must be at most 3 characters." ].
Proof.
  split; [reflexivity|]. intros py.
  apply (X14_messages_name_a_parameter_of_the_table two_table
           (Some [ (lit "b", PyStr (lit "wxyz")); (lit "a", PyStr (lit "x")) ])
           [ lit "Parameter [a] must be at least 2 characters.";
             lit "Parameter [b] must be at most 3 characters." ]
           eq_refl).
Defined.
